(** * Task dashboard: reconciliation of snapshot and push events

    A shallow embedding of [src/frontend/dashboard.js]: the task store
    [tasks], the snapshot loader [fetchTasks], the push handler
    [ws.onmessage] / [handleWsMessage], and the summary projector
    [getTaskSummary].

    Conventions of the model.
    - JavaScript values are the values JSON can carry plus [undefined].
    - The object [tasks] is used by the code as a map from identifier to
      record; its own properties are a [gmap string obj].  A read
      [tasks[k]] of a name that is not an own property finds what a plain
      object inherits from [Object.prototype] ([tasks_get]).  A record the
      code stores under [__proto__] is kept as the entry of that key; that
      the object then inherits the fields of that record is not modelled.
    - A handler is a function on [state] that either completes or throws;
      a throw keeps every assignment made before it.
    - The body of an [async] function after its [await]s is a separate
      step ([fetchTasks_resume]) that the environment runs when the
      response arrives.
    - Text that the code only writes into presentation nodes (labels,
      icons, time stamps) is not tracked; whether computing it throws is.
    - [createTaskCard] interpolates the persona, the status and the
      summary into the markup of the card.  A card records what became of
      that markup ([card_markup]): with plain texts the card has the
      elements of the template and no others; with a persona free of [<]
      it has at least its status badge.  What the HTML parser makes of a
      persona that carries a [<] is not modelled; the model takes the case
      of the unclosed comment, in which the status badge is lost.  On a
      grid of intact cards [getElementById] and [querySelector] find what
      the model finds; elements that a text with markup adds to a card are
      not modelled.
    - The page is in standards mode, [feather.replace()] completes, and
      outside the grid the page has no element whose id starts with
      [card-].
    - The handlers of the modal ([openTaskModal], [closeModal]) come in
      the second part, with the payload the form page of
      [src/frontend/script.js] posts; the properties of the first part hold
      for any value of [activeTaskId]. *)

From stdpp Require Import gmap strings list fin_maps.

Open Scope string_scope.
Open Scope list_scope.
Set Warnings "-register-all".

(** ** Values *)

(** [VNum r]: a finite number, identified by its [Number::toString]
    rendering [r] (["0"] for both zeros). *)
Inductive value : Type :=
| VUndefined
| VNull
| VBool (b : bool)
| VNum (repr : string)
| VStr (s : string)
| VArr (items : list value)
| VObj (fields : list (string * value)).

(** An object: its own properties in insertion order, names unique. *)
Abbreviation obj := (list (string * value)).

Fixpoint field (k : string) (o : obj) : value :=
  match o with
  | [] => VUndefined
  | (k', v) :: o' => if String.eqb k' k then v else field k o'
  end.

Fixpoint has_field (k : string) (o : obj) : bool :=
  match o with
  | [] => false
  | (k', _) :: o' => if String.eqb k' k then true else has_field k o'
  end.

(** [o.k = v]: overwrite the property in place, or add it last. *)
Fixpoint set_field (k : string) (v : value) (o : obj) : obj :=
  match o with
  | [] => [(k, v)]
  | (k', v') :: o' =>
      if String.eqb k' k then (k', v) :: o' else (k', v') :: set_field k v o'
  end.

(** [v.k] for a [v] that is neither [null] nor [undefined], and a name [k]
    that no built-in prototype defines. *)
Definition prop (v : value) (k : string) : value :=
  match v with
  | VObj o => field k o
  | _ => VUndefined
  end.

(** ToBoolean. *)
Definition truthy (v : value) : bool :=
  match v with
  | VUndefined | VNull => false
  | VBool b => b
  | VNum r => negb (String.eqb r "0")
  | VStr s => negb (String.eqb s "")
  | VArr _ | VObj _ => true
  end.

(** [a || b]. *)
Definition or_else (a b : value) : value := if truthy a then a else b.

(** [v === 'lit']. *)
Definition is_str (v : value) (lit : string) : bool :=
  match v with
  | VStr s => String.eqb s lit
  | _ => false
  end.

(** [a === b].  Objects and arrays compare by identity; the two operands
    of every comparison in the code come from different messages, hence
    from different allocations. *)
Definition strict_equal (a b : value) : bool :=
  match a, b with
  | VUndefined, VUndefined => true
  | VNull, VNull => true
  | VBool x, VBool y => Bool.eqb x y
  | VNum x, VNum y => String.eqb x y
  | VStr x, VStr y => String.eqb x y
  | _, _ => false
  end.

(** ToString, as used by template literals and property keys.  [None] is
    a TypeError: an object whose own [toString] property is not callable
    cannot be converted to a primitive. *)
Fixpoint ToString (v : value) : option string :=
  match v with
  | VUndefined => Some "undefined"
  | VNull => Some "null"
  | VBool true => Some "true"
  | VBool false => Some "false"
  | VNum r => Some r
  | VStr s => Some s
  | VArr items =>
      (fix join (l : list value) : option string :=
         match l with
         | [] => Some ""
         | x :: l' =>
             let e := match x with
                      | VUndefined | VNull => Some ""
                      | _ => ToString x
                      end in
             match e, l' with
             | None, _ => None
             | Some s, [] => Some s
             | Some s, _ :: _ =>
                 match join l' with
                 | Some r => Some (s +:+ "," +:+ r)
                 | None => None
                 end
             end
         end) items
  | VObj o => if has_field "toString" o then None else Some "[object Object]"
  end.

(** ** Text in markup and in class names *)

(** The characters that end character data or an attribute value: [<],
    [&] and the double quote. *)
Definition markup_char (c : Ascii.ascii) : bool :=
  Nat.eqb (Ascii.nat_of_ascii c) 60 || Nat.eqb (Ascii.nat_of_ascii c) 38
  || Nat.eqb (Ascii.nat_of_ascii c) 34.

(** A text that the HTML parser reads as itself, as character data and
    inside a quoted attribute value. *)
Fixpoint plain_text (s : string) : bool :=
  match s with
  | EmptyString => true
  | String c s' => negb (markup_char c) && plain_text s'
  end.

(** A text without [<]: as character data it opens no tag and no
    comment. *)
Fixpoint text_safe (s : string) : bool :=
  match s with
  | EmptyString => true
  | String c s' => negb (Nat.eqb (Ascii.nat_of_ascii c) 60) && text_safe s'
  end.

(** What became of the markup of a card once the persona label, the
    status and the summary were interpolated into it.  [Intact]: the texts
    were plain, the card has the elements of the template and no others,
    and shows the texts as they are.  [Altered]: the label is free of [<],
    so the card has its status badge, but some text was not plain.
    [Broken]: the label carries a [<]. *)
Inductive markup : Type := Intact | Altered | Broken.

Definition markup_of (label status summary : string) : markup :=
  if negb (text_safe label) then Broken
  else if plain_text label && plain_text status && plain_text summary then Intact
  else Altered.

(** ASCII whitespace separates the tokens of a class name. *)
Definition is_space (c : Ascii.ascii) : bool :=
  Nat.eqb (Ascii.nat_of_ascii c) 9 || Nat.eqb (Ascii.nat_of_ascii c) 10
  || Nat.eqb (Ascii.nat_of_ascii c) 12 || Nat.eqb (Ascii.nat_of_ascii c) 13
  || Nat.eqb (Ascii.nat_of_ascii c) 32.

(** The tokens of [s]; [cur] is the token being read. *)
Fixpoint class_tokens (s cur : string) : list string :=
  match s with
  | EmptyString => if String.eqb cur EmptyString then [] else [cur]
  | String c s' =>
      if is_space c
      then (if String.eqb cur EmptyString then class_tokens s' EmptyString
            else cur :: class_tokens s' EmptyString)
      else class_tokens s' (cur +:+ String c EmptyString)
  end.

(** An element of class name [className] matches the selector [.token]. *)
Definition has_class (token className : string) : bool :=
  existsb (String.eqb token) (class_tokens className EmptyString).

(** ** The store object *)

(** The names a plain object inherits from [Object.prototype]. *)
Definition Object_prototype : list string :=
  ["constructor"; "__defineGetter__"; "__defineSetter__"; "hasOwnProperty";
   "__lookupGetter__"; "__lookupSetter__"; "isPrototypeOf";
   "propertyIsEnumerable"; "toString"; "valueOf"; "__proto__";
   "toLocaleString"].

Definition inherited (k : string) : bool :=
  existsb (String.eqb k) Object_prototype.

(** [tasks[k]] as the code reads it: the record stored under [k], else,
    for an inherited name, a built-in object.  None of the properties the
    code reads of it ([persona], [status], [logs], [result]) is defined on a
    built-in, which is therefore read as the empty object; [None] is
    [undefined]. *)
Definition tasks_get (t : gmap string obj) (k : string) : option obj :=
  match t !! k with
  | Some task => Some task
  | None => if inherited k then Some [] else None
  end.

(** ** Completions and the handler monad *)

Inductive exn : Type := TypeError | SyntaxError.

Inductive completion (A : Type) : Type :=
| Normal (a : A)
| Throw (e : exn).
Arguments Normal {A} a.
Arguments Throw {A} e.

(** ** State *)

(** A card of the grid: its element id, the status in its class name, the
    text interpolated into its [task-info] paragraph, and what became of
    its markup. *)
Record card : Type := Card {
  card_id : string;
  card_status : string;
  card_summary : string;
  card_markup : markup
}.

Definition card_intact (c : card) : bool :=
  match card_markup c with
  | Intact => true
  | _ => false
  end.

(** [card.querySelector('.status-badge')] finds the badge. *)
Definition has_badge (c : card) : bool :=
  match card_markup c with
  | Broken => false
  | _ => true
  end.

Inductive grid_node : Type :=
| EmptyState
| CardNode (c : card).

Inductive console_entry : Type :=
| ConsoleError (label : string) (e : exn)
| ConsoleLog (label : string) (data : string).

Record state : Type := State {
  tasks : gmap string obj;
  activeTaskId : value;
  tasksGrid : list grid_node;
  consoleOutput : list string;
  modalStatus : string;
  resultArea : option value;
  connectionStatus : string;
  reconnect_timers : nat;
  fetches_in_flight : nat;
  console : list console_entry
}.

Definition M (A : Type) : Type := state -> completion A * state.

Definition ret {A} (a : A) : M A := fun st => (Normal a, st).

Definition throw {A} (e : exn) : M A := fun st => (Throw e, st).

Definition bind {A B} (c : M A) (k : A -> M B) : M B :=
  fun st =>
    match c st with
    | (Normal a, st') => k a st'
    | (Throw e, st') => (Throw e, st')
    end.

Notation "'let*' x ':=' c 'in' k" := (bind c (fun x => k))
  (at level 10, x name, c at level 100, k at level 200).
Notation "c ';;;' k" := (bind c (fun _ => k))
  (at level 100, k at level 200, right associativity).

(** [try { c } catch (e) { h e }]. *)
Definition try_catch (c : M unit) (h : exn -> state -> state) : state -> state :=
  fun st =>
    match c st with
    | (Normal _, st') => st'
    | (Throw e, st') => h e st'
    end.

Definition modify (f : state -> state) : M unit := fun st => (Normal tt, f st).

Definition gets {A} (f : state -> A) : M A := fun st => (Normal (f st), st).

(** A pure computation that may throw a TypeError. *)
Definition lift_opt {A} (o : option A) : M A :=
  match o with
  | Some a => ret a
  | None => throw TypeError
  end.

(** Template-literal substitution and property-key conversion. *)
Definition to_string (v : value) : M string := lift_opt (ToString v).

(** Calling a [String.prototype] method ([charAt], [toUpperCase]) on [v]. *)
Definition string_method (v : value) : M unit :=
  match v with
  | VStr _ => ret tt
  | _ => throw TypeError
  end.

(** State updates, one per assigned variable or node. *)
Definition set_tasks (t : gmap string obj) (st : state) : state :=
  State t (activeTaskId st) (tasksGrid st) (consoleOutput st) (modalStatus st)
        (resultArea st) (connectionStatus st) (reconnect_timers st)
        (fetches_in_flight st) (console st).

Definition set_tasksGrid (g : list grid_node) (st : state) : state :=
  State (tasks st) (activeTaskId st) g (consoleOutput st) (modalStatus st)
        (resultArea st) (connectionStatus st) (reconnect_timers st)
        (fetches_in_flight st) (console st).

Definition set_consoleOutput (l : list string) (st : state) : state :=
  State (tasks st) (activeTaskId st) (tasksGrid st) l (modalStatus st)
        (resultArea st) (connectionStatus st) (reconnect_timers st)
        (fetches_in_flight st) (console st).

Definition set_modalStatus (s : string) (st : state) : state :=
  State (tasks st) (activeTaskId st) (tasksGrid st) (consoleOutput st) s
        (resultArea st) (connectionStatus st) (reconnect_timers st)
        (fetches_in_flight st) (console st).

Definition set_resultArea (r : option value) (st : state) : state :=
  State (tasks st) (activeTaskId st) (tasksGrid st) (consoleOutput st)
        (modalStatus st) r (connectionStatus st) (reconnect_timers st)
        (fetches_in_flight st) (console st).

Definition set_connection (s : string) (timers : nat) (st : state) : state :=
  State (tasks st) (activeTaskId st) (tasksGrid st) (consoleOutput st)
        (modalStatus st) (resultArea st) s timers
        (fetches_in_flight st) (console st).

Definition set_fetches_in_flight (n : nat) (st : state) : state :=
  State (tasks st) (activeTaskId st) (tasksGrid st) (consoleOutput st)
        (modalStatus st) (resultArea st) (connectionStatus st)
        (reconnect_timers st) n (console st).

Definition console_push (e : console_entry) (st : state) : state :=
  State (tasks st) (activeTaskId st) (tasksGrid st) (consoleOutput st)
        (modalStatus st) (resultArea st) (connectionStatus st)
        (reconnect_timers st) (fetches_in_flight st) (console st ++ [e]).

(** ** Helpers of the dashboard *)

(** [`prefix${v}`]. *)
Definition template (prefix : string) (v : value) : option string :=
  match ToString v with
  | Some s => Some (prefix +:+ s)
  | None => None
  end.

(** [getTaskSummary(task)]; [None] when a substitution cannot be
    converted to a string. *)
Definition getTaskSummary (task : obj) : option string :=
  let p := or_else (field "payload" task) (VObj []) in
  let persona := field "persona" task in
  if is_str persona "shopper" then
    template "Finding " (or_else (prop p "product") (VStr "items"))
  else if is_str persona "rider" then
    template "Ride to " (or_else (prop p "drop") (VStr "destination"))
  else if is_str persona "patient" then
    template "Meds: " (or_else (prop p "medicine") (VStr "Prescription"))
  else if is_str persona "coordinator" then
    template "Event: " (or_else (prop p "event_name") (VStr "Party"))
  else if is_str persona "foodie" then
    template "Order: " (or_else (prop p "food_item") (VStr "Food"))
  else Some "Execution in progress...".

(** [capitalize(str)]: [str.charAt(0).toUpperCase() + str.slice(1)] when
    [str] is truthy. *)
Definition capitalize (str : value) : M unit :=
  if truthy str then string_method str else ret tt.

(** ToPrimitive fails on the values on which ToString does. *)
Definition to_primitive (v : value) : M unit := to_string v ;;; ret tt.

(** [formatTime(isoStr)]: [new Date(isoStr)] when [isoStr] is truthy. *)
Definition formatTime (isoStr : value) : M unit :=
  if truthy isoStr then to_primitive isoStr else ret tt.

(** [getPersonaIcon(persona)]: [icons[persona] || ...]. *)
Definition getPersonaIcon (persona : value) : M unit :=
  to_string persona ;;; ret tt.

(** ** The grid *)

(** The node matches [querySelector('.empty-state')]: the empty state
    itself, or a card whose status puts [empty-state] among the classes of
    the card. *)
Definition is_empty_state (n : grid_node) : bool :=
  match n with
  | EmptyState => true
  | CardNode c => has_class "empty-state" (card_status c)
  end.

(** [document.getElementById(id)]: the first element in tree order. *)
Fixpoint getElementById (id : string) (g : list grid_node) : option card :=
  match g with
  | [] => None
  | EmptyState :: g' => getElementById id g'
  | CardNode c :: g' =>
      if String.eqb (card_id c) id then Some c else getElementById id g'
  end.

(** [card.className = `task-card ${status}`] on that element. *)
Fixpoint set_card_status (id status : string) (g : list grid_node)
  : list grid_node :=
  match g with
  | [] => []
  | EmptyState :: g' => EmptyState :: set_card_status id status g'
  | CardNode c :: g' =>
      if String.eqb (card_id c) id
      then CardNode (Card (card_id c) status (card_summary c) (card_markup c)) :: g'
      else CardNode c :: set_card_status id status g'
  end.

Definition renderEmptyState : M unit := modify (set_tasksGrid [EmptyState]).

(** The text of the persona label, up to the case of its first letter. *)
Definition label_of (persona : value) : string :=
  match persona with
  | VStr s => s
  | _ => EmptyString
  end.

Definition createTaskCard (task : obj) : M unit :=
  (let* g := gets tasksGrid in
   if existsb is_empty_state g then modify (set_tasksGrid []) else ret tt) ;;;
  let* id := to_string (field "id" task) in
  let* status := to_string (field "status" task) in
  getPersonaIcon (field "persona" task) ;;;
  capitalize (field "persona" task) ;;;
  to_string (field "status" task) ;;;
  string_method (field "status" task) ;;;
  let* summary := lift_opt (getTaskSummary task) in
  formatTime (field "created_at" task) ;;;
  modify (fun st =>
    set_tasksGrid
      (CardNode (Card ("card-" +:+ id) status summary
                   (markup_of (label_of (field "persona" task)) status summary))
         :: tasksGrid st) st).

Definition showResult (result : value) : M unit :=
  modify (set_resultArea (Some result)).

(** [appendLog(message)]: [message.includes] exists on strings and arrays. *)
Definition appendLog (message : value) : M unit :=
  match message with
  | VStr s => modify (fun st => set_consoleOutput (consoleOutput st ++ [s]) st)
  | VArr _ =>
      let* s := to_string message in
      modify (fun st => set_consoleOutput (consoleOutput st ++ [s]) st)
  | _ => throw TypeError
  end.

Definition updateTaskCard (taskId status result : value) : M unit :=
  let result := match result with VUndefined => VNull | _ => result end in
  let* id := to_string taskId in
  let* g := gets tasksGrid in
  match getElementById ("card-" +:+ id) g with
  | None => ret tt
  | Some card =>
      let* s := to_string status in
      modify (fun st =>
        set_tasksGrid (set_card_status ("card-" +:+ id) s (tasksGrid st)) st) ;;;
      (* [badge.className] on the [null] that [querySelector] returned *)
      (if has_badge card then ret tt else throw TypeError) ;;;
      string_method status ;;;
      (* a write to an inherited built-in is lost to the store *)
      (let* t := gets tasks in
       match t !! id with
       | Some rec =>
           modify (set_tasks
             (<[id := set_field "result" result (set_field "status" status rec)]> t))
       | None => ret tt
       end) ;;;
      let* active := gets activeTaskId in
      if strict_equal active taskId then
        modify (set_modalStatus s) ;;;
        if is_str status "success" || is_str status "failed"
        then showResult result
        else ret tt
      else ret tt
  end.

(** ** Snapshot loader *)

(** What the two [await]s of [fetchTasks] produce.  [Body data] is a
    response whose JSON is an array of objects, the shape [GET /tasks]
    serves.  A response whose JSON is not an array is an [other_body]; an
    array with an element that is not an object is not modelled. *)
Inductive fetch_outcome : Type :=
| FetchRejected
| BodyNotJson
| Body (data : list obj).

(** A response whose JSON is not an array. *)
Inductive other_body : Type :=
| OtherNull
| OtherBool (b : bool)
| OtherNum (repr : string)
| OtherStr (s : string)
| OtherObj (fields : obj).

(** [fetchTasks()] up to its first [await]: the request is issued. *)
Definition fetchTasks : M unit :=
  modify (fun st => set_fetches_in_flight (S (fetches_in_flight st)) st).

Fixpoint forEach {A} (l : list A) (f : A -> M unit) : M unit :=
  match l with
  | [] => ret tt
  | x :: l' => f x ;;; forEach l' f
  end.

(** The rest of [fetchTasks], run when the response has arrived. *)
Definition fetchTasks_resume (r : fetch_outcome) (st : state) : state :=
  try_catch
    match r with
    | FetchRejected => throw TypeError
    | BodyNotJson => throw SyntaxError
    | Body data =>
        modify (set_tasksGrid []) ;;;
        modify (set_tasks ∅) ;;;
        match data with
        | [] => renderEmptyState
        | _ :: _ =>
            forEach data (fun task =>
              let* k := to_string (field "id" task) in
              modify (fun st => set_tasks (<[k := task]> (tasks st)) st) ;;;
              createTaskCard task)
        end
    end
    (fun e => console_push (ConsoleError "Failed to fetch tasks:" e))
    (set_fetches_in_flight (pred (fetches_in_flight st)) st).

(** The same, for a response whose JSON is not an array: store and grid
    are reset before [data.length] is read; the empty string and an object
    whose [length] is 0 show the empty state, every other value has no
    [forEach] to call. *)
Definition fetchTasks_resume_other (body : other_body) (st : state) : state :=
  try_catch
    (modify (set_tasksGrid []) ;;;
     modify (set_tasks ∅) ;;;
     match body with
     | OtherNull => throw TypeError
     | OtherStr s =>
         if String.eqb s EmptyString then renderEmptyState else throw TypeError
     | OtherObj fields =>
         if strict_equal (field "length" fields) (VNum "0")
         then renderEmptyState else throw TypeError
     | OtherBool _ | OtherNum _ => throw TypeError
     end)
    (fun e => console_push (ConsoleError "Failed to fetch tasks:" e))
    (set_fetches_in_flight (pred (fetches_in_flight st)) st).

(** ** Push connection *)

(** An inbound frame: its text, and what [JSON.parse] makes of it
    ([None]: a SyntaxError). *)
Record MessageEvent : Type := Frame {
  data : string;
  JSON_parse : option value
}.

(** The record a [start] message creates; [now] is the reading of
    [new Date().toISOString()]. *)
Definition newTask (task_id persona : value) (now : string) : obj :=
  [("id", task_id); ("persona", persona); ("status", VStr "running");
   ("created_at", VStr now); ("logs", VArr []); ("result", VNull);
   ("payload", VObj [])].

Definition handleWsMessage (now : string) (payload : value) : M unit :=
  match payload with
  | VUndefined | VNull => throw TypeError
  | _ =>
      let type := prop payload "type" in
      let task_id := prop payload "task_id" in
      let message := prop payload "message" in
      let status := prop payload "status" in
      let result := prop payload "result" in
      let persona := prop payload "persona" in
      (if is_str type "start" then
         let newTask := newTask task_id persona now in
         let* k := to_string task_id in
         modify (fun st => set_tasks (<[k := newTask]> (tasks st)) st) ;;;
         createTaskCard newTask
       else ret tt) ;;;
      let* k := to_string task_id in
      let* t := gets tasks in
      if negb (bool_decide (is_Some (tasks_get t k))) && negb (is_str type "start")
      then fetchTasks
      else if is_str type "log" then
        match tasks_get t k with
        | None => throw TypeError
        | Some rec =>
            match field "logs" rec with
            | VArr lines =>
                modify (set_tasks
                  (<[k := set_field "logs" (VArr (lines ++ [message])) rec]> t)) ;;;
                let* active := gets activeTaskId in
                if strict_equal active task_id then appendLog message else ret tt
            | _ => throw TypeError
            end
        end
      else if is_str type "complete" then updateTaskCard task_id status result
      else ret tt
  end.

Definition ws_onopen (st : state) : state :=
  set_connection "Live Uplink" (reconnect_timers st) st.

Definition ws_onmessage (now : string) (event : MessageEvent) : state -> state :=
  try_catch
    match JSON_parse event with
    | None => throw SyntaxError
    | Some payload => handleWsMessage now payload
    end
    (fun _ => console_push (ConsoleLog "Ignored non-JSON WS message:" (data event))).

(** [setTimeout(connectWebSocket, 5000)] adds a pending timer. *)
Definition ws_onclose (st : state) : state :=
  set_connection "Disconnected" (S (reconnect_timers st)) st.

(** The page before its script has run, and the [DOMContentLoaded]
    handler: [fetchTasks(); connectWebSocket();]. *)
Definition initial_state : state :=
  State ∅ VNull [] [] "" None "" 0 0 [].

Definition DOMContentLoaded : state -> state :=
  fun st => snd (fetchTasks st).

(** ** Push events of the three shapes *)

Inductive InboundEvent : Type :=
| Start (task_id persona : string)
| Log (task_id message : string)
| Complete (task_id status : string) (result : value).

Definition frame_of (e : InboundEvent) : value :=
  match e with
  | Start task_id persona =>
      VObj [("type", VStr "start"); ("task_id", VStr task_id);
            ("persona", VStr persona)]
  | Log task_id message =>
      VObj [("type", VStr "log"); ("task_id", VStr task_id);
            ("message", VStr message)]
  | Complete task_id status result =>
      VObj [("type", VStr "complete"); ("task_id", VStr task_id);
            ("status", VStr status); ("result", result)]
  end.

(** One event through [handleWsMessage], at clock reading [now]. *)
Definition apply (now : string) (e : InboundEvent) (st : state) : state :=
  snd (handleWsMessage now (frame_of e) st).

Definition apply_all (evs : list (string * InboundEvent)) (st : state) : state :=
  fold_left (fun s ne => apply (fst ne) (snd ne) s) evs st.

(** * Vocabulary of the properties *)

(** The placeholder shown for a task whose payload carries nothing. *)
Definition placeholder (persona : string) : string :=
  if String.eqb persona "shopper" then "Finding items"
  else if String.eqb persona "rider" then "Ride to destination"
  else if String.eqb persona "patient" then "Meds: Prescription"
  else if String.eqb persona "coordinator" then "Event: Party"
  else if String.eqb persona "foodie" then "Order: Food"
  else "Execution in progress...".

(** The markup of the card of a fresh record. *)
Definition markup_of_persona (persona : string) : markup :=
  markup_of persona "running" (placeholder persona).

(** The grid once [createTaskCard] has removed the empty state, if any. *)
Definition clear_empty_state (g : list grid_node) : list grid_node :=
  if existsb is_empty_state g then [] else g.

(** What the operator sees: the nodes of the page that the handlers
    write. *)
Definition page (st : state)
  : list grid_node * list string * string * option value * string :=
  (tasksGrid st, consoleOutput st, modalStatus st, resultArea st,
   connectionStatus st).

(** Every card of the grid is intact. *)
Definition intact_grid (g : list grid_node) : bool :=
  forallb (fun n => match n with
                    | EmptyState => true
                    | CardNode c => card_intact c
                    end) g.

(** The statuses of the specification. *)
Definition spec_status (s : string) : bool :=
  existsb (String.eqb s) ["pending"; "running"; "success"; "failed"].

(** Every card of the grid is intact and has a status of the
    specification. *)
Definition ordinary_grid (g : list grid_node) : bool :=
  forallb (fun n => match n with
                    | EmptyState => true
                    | CardNode c => card_intact c && spec_status (card_status c)
                    end) g.

(** Log events for [id], from pairs of clock reading and message. *)
Definition log_events (id : string) (logs : list (string * string))
  : list (string * InboundEvent) :=
  map (fun tm => (fst tm, Log id (snd tm))) logs.

Definition messages (logs : list (string * string)) : list value :=
  map (fun tm => VStr (snd tm)) logs.

(** A store in which task [t1] has started, logged once and succeeded. *)
Definition finished_t1 : state :=
  apply_all [("T0", Start "t1" "shopper"); ("T1", Log "t1" "searching");
             ("T2", Complete "t1" "success" (VObj [("message", VStr "done")]))]
            initial_state.

(** The record of [t1] in that store. *)
Definition finished_t1_record : obj :=
  [("id", VStr "t1"); ("persona", VStr "shopper"); ("status", VStr "success");
   ("created_at", VStr "T0"); ("logs", VArr [VStr "searching"]);
   ("result", VObj [("message", VStr "done")]); ("payload", VObj [])].

Definition event_task_id (e : InboundEvent) : string :=
  match e with
  | Start task_id _ | Log task_id _ | Complete task_id _ _ => task_id
  end.

Definition is_start (e : InboundEvent) : bool :=
  match e with
  | Start _ _ => true
  | _ => false
  end.

(** Running [c] from [st] ends, normally or not, in a state that [P]
    relates to [st]. *)
Definition keeps (P : state -> state -> Prop) {A} (c : M A) (st : state) : Prop :=
  P st (snd (c st)).

(** Two states with the same projection [proj]. *)
Definition same {X : Type} (proj : state -> X) (a b : state) : Prop :=
  proj a = proj b.

(** From states that [R] relates, [c] completes alike and ends in states
    that [R] relates. *)
Definition sim (R : state -> state -> Prop) {A} (c : M A) : Prop :=
  forall a b, R a b -> fst (c a) = fst (c b) /\ R (snd (c a)) (snd (c b)).

(** Two states that show the same store and the same grid. *)
Definition same_view (a b : state) : Prop :=
  tasks a = tasks b /\ tasksGrid a = tasksGrid b.

(** Two states that differ at most in the number of fetches in flight. *)
Definition same_but_fetches (a b : state) : Prop :=
  set_fetches_in_flight 0 a = set_fetches_in_flight 0 b.

(** The line the catch block of [ws.onmessage] logs. *)
Definition ignored (event : MessageEvent) : console_entry :=
  ConsoleLog "Ignored non-JSON WS message:" (data event).

(** The summary as the specification words it: a table from persona to the
    summarised payload field, with the wording around it and the text that
    stands in for a missing field. *)
Definition summary_table : list (string * (string * string * string)) :=
  [("shopper", ("Finding ", "product", "items"));
   ("rider", ("Ride to ", "drop", "destination"));
   ("patient", ("Meds: ", "medicine", "Prescription"));
   ("coordinator", ("Event: ", "event_name", "Party"));
   ("foodie", ("Order: ", "food_item", "Food"))].

Fixpoint table_lookup {A} (k : string) (tbl : list (string * A)) : option A :=
  match tbl with
  | [] => None
  | (k', a) :: tbl' => if String.eqb k k' then Some a else table_lookup k tbl'
  end.

Definition summarize (task : obj) : option string :=
  let p := or_else (field "payload" task) (VObj []) in
  match field "persona" task with
  | VStr persona =>
      match table_lookup persona summary_table with
      | Some (prefix, name, missing) =>
          template prefix (or_else (prop p name) (VStr missing))
      | None => Some "Execution in progress..."
      end
  | _ => Some "Execution in progress..."
  end.





(** A start message whose persona is the number 5. *)
Definition start_persona_5 : value :=
  VObj [("type", VStr "start"); ("task_id", VStr "t1"); ("persona", VNum "5")].

(** A store loaded from a snapshot whose only record has no [logs]. *)
Definition snapshot_without_logs : state :=
  fetchTasks_resume
    (Body [[("id", VStr "t4"); ("persona", VStr "foodie"); ("status", VStr "running")]])
    (DOMContentLoaded initial_state).

(** * The rest of the dashboard *)

(** ** The modal *)

Definition set_activeTaskId (v : value) (st : state) : state :=
  State (tasks st) v (tasksGrid st) (consoleOutput st) (modalStatus st)
        (resultArea st) (connectionStatus st) (reconnect_timers st)
        (fetches_in_flight st) (console st).

(** [v > 0].  Numbers are read off their rendering; what a string converts
    to is the platform's affair and is taken as [string_positive].  An
    object or array is first converted to a string; [None] is the
    TypeError of that conversion. *)
Definition greater_than_zero (string_positive : string -> bool) (v : value)
  : option bool :=
  match v with
  | VUndefined | VNull => Some false
  | VBool b => Some b
  | VNum r => Some (negb (String.eqb r "0") && negb (String.prefix "-" r))
  | VStr s => Some (string_positive s)
  | VArr _ | VObj _ =>
      match ToString v with
      | Some s => Some (string_positive s)
      | None => None
      end
  end.

(** [logs.length > 0] for a truthy [logs]. *)
Definition length_positive (string_positive : string -> bool) (logs : value)
  : option bool :=
  match logs with
  | VArr items => Some (match items with [] => false | _ :: _ => true end)
  | VStr s => Some (negb (String.eqb s ""))
  | VObj o => greater_than_zero string_positive (field "length" o)
  | _ => Some false
  end.

(** The line the console shows for a task without logs. *)
Definition waiting_line : string := "> Waiting for Uplink...".

Definition openTaskModal (string_positive : string -> bool) (taskId : value)
  : M unit :=
  let* k := to_string taskId in
  let* t := gets tasks in
  match tasks_get t k with
  | None => ret tt
  | Some task =>
      modify (set_activeTaskId taskId) ;;;
      capitalize (field "persona" task) ;;;
      string_method taskId ;;;
      string_method (field "status" task) ;;;
      let* s := to_string (field "status" task) in
      modify (set_modalStatus s) ;;;
      modify (set_consoleOutput []) ;;;
      (if truthy (field "logs" task) then
         let* positive :=
           lift_opt (length_positive string_positive (field "logs" task)) in
         if positive then
           match field "logs" task with
           | VArr items => forEach items appendLog
           | _ => throw TypeError
           end
         else modify (set_consoleOutput [waiting_line])
       else modify (set_consoleOutput [waiting_line])) ;;;
      if is_str (field "status" task) "success"
         || is_str (field "status" task) "failed"
      then showResult (field "result" task)
      else modify (set_resultArea None)
  end.

(** The callback [closeModal] schedules: [activeTaskId = null]. *)
Definition closeModal_timeout (st : state) : state := set_activeTaskId VNull st.

(** ** What happens on the page *)

(** The events the dashboard reacts to after [DOMContentLoaded].  An
    exception that leaves a click handler is reported by the browser and
    the state stays as the handler left it. *)
Inductive dashboard_event : Type :=
| FetchDone (r : fetch_outcome)
| SocketOpened
| SocketClosed
| Message (now : string) (event : MessageEvent)
| CardClicked (taskId : value)
| ModalClosed.

Definition step (string_positive : string -> bool) (ev : dashboard_event)
  (st : state) : state :=
  match ev with
  | FetchDone r => fetchTasks_resume r st
  | SocketOpened => ws_onopen st
  | SocketClosed => ws_onclose st
  | Message now event => ws_onmessage now event st
  | CardClicked taskId => snd (openTaskModal string_positive taskId st)
  | ModalClosed => closeModal_timeout st
  end.

Definition run (string_positive : string -> bool) (evs : list dashboard_event)
  (st : state) : state :=
  fold_left (fun s ev => step string_positive ev s) evs st.

(** ** Vocabulary of the further properties *)

Definition is_string (v : value) : bool :=
  match v with
  | VStr _ => true
  | _ => false
  end.

(** The card [createTaskCard] draws for a record, if it can draw one. *)
Definition card_for (task : obj) : option card :=
  match ToString (field "id" task), ToString (field "status" task),
        getTaskSummary task with
  | Some id, Some status, Some summary =>
      if is_string (field "status" task)
         && (negb (truthy (field "persona" task))
             || is_string (field "persona" task))
         && (negb (truthy (field "created_at" task))
             || bool_decide (is_Some (ToString (field "created_at" task))))
      then Some (Card ("card-" +:+ id) status summary
                   (markup_of (label_of (field "persona" task)) status summary))
      else None
  | _, _, _ => None
  end.

(** A record whose card is intact and has a status of the specification. *)
Definition ordinary_record (task : obj) : bool :=
  match card_for task with
  | Some c => card_intact c && spec_status (card_status c)
  | None => false
  end.



(** Every card of the grid is the card of a key of the store. *)
Definition cards_have_records (st : state) : Prop :=
  forall c, CardNode c ∈ tasksGrid st ->
    exists k, card_id c = "card-" +:+ k /\ is_Some (tasks st !! k).

(** No key of the store is lost. *)
Definition keys_kept (a b : state) : Prop :=
  forall k, is_Some (tasks a !! k) -> is_Some (tasks b !! k).

(** No key is lost and no card id is new. *)
Definition keys_kept_no_new_cards (a b : state) : Prop :=
  (forall k, is_Some (tasks a !! k) -> is_Some (tasks b !! k)) /\
  (forall c, CardNode c ∈ tasksGrid b ->
     exists c', CardNode c' ∈ tasksGrid a /\ card_id c' = card_id c).

(** [new] is [old], or [old] with lines added at its end. *)
Definition logs_extend (old new : value) : Prop :=
  new = old \/
  exists lines more, old = VArr lines /\ new = VArr (lines ++ more).

Definition record_grown (rec rec' : obj) : Prop :=
  (forall f, f <> "logs" -> f <> "status" -> f <> "result" ->
     field f rec' = field f rec) /\
  logs_extend (field "logs" rec) (field "logs" rec').

(** Same keys; each record keeps what is not logs, status or result, and
    its logs only grow. *)
Definition store_grown (a b : state) : Prop :=
  (forall k rec, tasks a !! k = Some rec ->
     exists rec', tasks b !! k = Some rec' /\ record_grown rec rec') /\
  (forall k, is_Some (tasks b !! k) -> is_Some (tasks a !! k)).

(** The key under which a snapshot record is stored. *)
Definition record_key (task : obj) : string :=
  default "" (ToString (field "id" task)).

(** The modal is open on task [id]: the logs of its record are [lines],
    and the console holds them after [pre]. *)
Definition console_mirrors (id : string) (pre lines : list string) (st : state)
  : Prop :=
  activeTaskId st = VStr id /\
  consoleOutput st = pre ++ lines /\
  exists rec, tasks st !! id = Some rec /\
              field "logs" rec = VArr (VStr <$> lines).

(** The lines the Log events for [id] add, in order. *)
Fixpoint logged (id : string) (evs : list (string * InboundEvent)) : list string :=
  match evs with
  | [] => []
  | (_, Log i m) :: evs' =>
      if String.eqb i id then m :: logged id evs' else logged id evs'
  | _ :: evs' => logged id evs'
  end.

(** No event of the list is a Start for [id]. *)
Fixpoint no_start_for (id : string) (evs : list (string * InboundEvent)) : bool :=
  match evs with
  | [] => true
  | (_, Start i _) :: evs' => negb (String.eqb i id) && no_start_for id evs'
  | _ :: evs' => no_start_for id evs'
  end.

(** A value that converts to a string without calling into an object. *)
Definition primitive (v : value) : bool :=
  match v with
  | VArr _ | VObj _ => false
  | _ => true
  end.

(** The store after the start whose persona is the number 5: the record
    is there, its card is not. *)
Definition record_without_card : state :=
  snd (handleWsMessage "T0" start_persona_5 initial_state).

(** The store a response leaves when every record is stored: later records
    overwrite earlier ones of the same key. *)
Definition installed (data : list obj) (m : gmap string obj) : gmap string obj :=
  fold_left (fun m task => <[record_key task := task]> m) data m.

(** The cards a response leaves: one per record, the last record first. *)
Definition drawn (data : list obj) : list grid_node :=
  CardNode <$> rev (omap card_for data).

(** Completed fetches, in the order in which they complete. *)
Definition fetch_all (rs : list fetch_outcome) (st : state) : state :=
  fold_left (fun s r => fetchTasks_resume r s) rs st.

(** The last response of the list that parsed. *)
Fixpoint last_body (rs : list fetch_outcome) : option (list obj) :=
  match rs with
  | [] => None
  | r :: rs' =>
      match last_body rs' with
      | Some data => Some data
      | None => match r with Body data => Some data | _ => None end
      end
  end.

(** Whether handling [payload] in [st] gets as far as [fetchTasks()]. *)
Definition reload_needed (payload : value) (st : state) : bool :=
  match payload with
  | VUndefined | VNull => false
  | _ =>
      negb (is_str (prop payload "type") "start")
      && match ToString (prop payload "task_id") with
         | Some k => negb (bool_decide (is_Some (tasks_get (tasks st) k)))
         | None => false
         end
  end.

(** ** The form page, [src/frontend/script.js] *)

(** The inputs the click handler of [find-deal-btn] reads. *)
Record form : Type := Form {
  product_name : string;
  pickup_location : string;
  drop_location : string;
  medicine_name : string;
  event_name : string;
  guest_name : string;
  guest_phone : string;
  food_item : string;
  foodie_action_toggle : bool
}.

(** The object the handler builds and posts to [/task]. *)
Definition task_payload (persona timestamp : string) (f : form) : obj :=
  [("persona", VStr persona); ("timestamp", VStr timestamp)]
  ++ (if String.eqb persona "shopper" then
        [("product", VStr (product_name f))]
      else if String.eqb persona "rider" then
        [("pickup", VStr (pickup_location f)); ("drop", VStr (drop_location f))]
      else if String.eqb persona "patient" then
        [("medicine", VStr (medicine_name f))]
      else if String.eqb persona "coordinator" then
        ("event_name", VStr (event_name f))
        :: (if negb (String.eqb (guest_name f) "") then
              [("guest_list",
                VArr [VObj [("name", VStr (guest_name f));
                            ("phone", VStr (guest_phone f))]])]
            else [])
      else if String.eqb persona "foodie" then
        [("food_item", VStr (food_item f));
         ("action", VStr (if foodie_action_toggle f then "order" else "search"))]
      else []).

(** The input whose text the dashboard summarises for a persona. *)
Definition summarised_input (persona : string) (f : form) : string :=
  if String.eqb persona "shopper" then product_name f
  else if String.eqb persona "rider" then drop_location f
  else if String.eqb persona "patient" then medicine_name f
  else if String.eqb persona "coordinator" then event_name f
  else if String.eqb persona "foodie" then food_item f
  else "".

(** What the click posts: nothing when no persona is selected. *)
Definition findDealBtn_click (persona timestamp : string) (f : form)
  : option obj :=
  if String.eqb persona "" then None else Some (task_payload persona timestamp f).

(** A response of two records. *)
Definition two_records : list obj :=
  [ [("id", VStr "a"); ("persona", VStr "rider"); ("status", VStr "running")];
    [("id", VStr "b"); ("persona", VStr "foodie"); ("status", VStr "success")] ].

(** No task is active and the modal shows what it showed in [st]. *)
Definition modal_at_rest (st st' : state) : Prop :=
  activeTaskId st' = VNull /\
  consoleOutput st' = consoleOutput st /\
  modalStatus st' = modalStatus st /\
  resultArea st' = resultArea st.

(** * Properties *)

Example scenario_t1 :
  tasks (apply_all [("T0", Start "t1" "shopper"); ("T1", Log "t1" "searching");
                    ("T2", Complete "t1" "success" (VObj [("message", VStr "done")]))]
                   initial_state) !! "t1"
  = Some [("id", VStr "t1"); ("persona", VStr "shopper"); ("status", VStr "success");
          ("created_at", VStr "T0"); ("logs", VArr [VStr "searching"]);
          ("result", VObj [("message", VStr "done")]); ("payload", VObj [])].
Proof. vm_compute. reflexivity. Qed.

(** ** Computing with the handler monad *)

Ltac unfold_M :=
  unfold to_primitive, to_string, lift_opt, string_method, try_catch,
    bind, ret, throw, modify, gets in *.

Lemma getTaskSummary_newTask task_id persona now :
  getTaskSummary (newTask task_id (VStr persona) now) = Some (placeholder persona).
Proof.
  unfold getTaskSummary, placeholder, newTask. cbn.
  repeat (destruct (String.eqb persona _); [reflexivity|]). reflexivity.
Qed.




Lemma markup_of_persona_text_safe persona :
  text_safe persona = true -> markup_of_persona persona <> Broken.
Proof.
  intros H. unfold markup_of_persona, markup_of. rewrite H. cbn [negb].
  destruct (_ && _); discriminate.
Qed.

Lemma createTaskCard_newTask id persona now st :
  createTaskCard (newTask (VStr id) (VStr persona) now) st
  = (Normal tt,
     set_tasksGrid
       (CardNode (Card ("card-" +:+ id) "running" (placeholder persona)
                    (markup_of_persona persona))
          :: clear_empty_state (tasksGrid st)) st).
Proof.
  unfold createTaskCard, clear_empty_state, markup_of_persona.
  rewrite getTaskSummary_newTask.
  unfold getPersonaIcon, capitalize, formatTime. unfold_M.
  cbn -[markup_of].
  destruct (existsb is_empty_state (tasksGrid st)); cbn -[markup_of];
    destruct (String.eqb persona ""); cbn -[markup_of];
    destruct (String.eqb now ""); cbn -[markup_of]; reflexivity.
Qed.

(** ** Reading the store *)

Lemma tasks_get_own t k rec : t !! k = Some rec -> tasks_get t k = Some rec.
Proof. intros H. unfold tasks_get. rewrite H. reflexivity. Qed.

Lemma tasks_get_None t k :
  tasks_get t k = None <-> t !! k = None /\ inherited k = false.
Proof.
  unfold tasks_get. destruct (t !! k); [split; [discriminate|intros [? _]; discriminate]|].
  destruct (inherited k); split; try discriminate; auto.
  intros [_ ?]. discriminate.
Qed.

(** What is read under an inherited name has no [logs]. *)
Lemma tasks_get_logs t k rec lines :
  tasks_get t k = Some rec -> field "logs" rec = VArr lines -> t !! k = Some rec.
Proof.
  unfold tasks_get. destruct (t !! k); [auto|].
  destruct (inherited k); [|discriminate].
  intros [= <-]. discriminate.
Qed.

Lemma getElementById_intact id g c :
  intact_grid g = true -> getElementById id g = Some c -> card_intact c = true.
Proof.
  induction g as [|[|c0] g IH]; cbn -[card_intact]; [discriminate|auto|].
  intros H. apply andb_true_iff in H as [H0 H].
  destruct (String.eqb (card_id c0) id); [intros [= <-]; exact H0|auto].
Qed.

Lemma card_intact_has_badge c : card_intact c = true -> has_badge c = true.
Proof. unfold card_intact, has_badge. destruct (card_markup c); auto. Qed.

(** ** Objects *)

Lemma field_set_field_eq k v o : field k (set_field k v o) = v.
Proof.
  induction o as [|[k' v'] o IH]; cbn.
  - rewrite String.eqb_refl. reflexivity.
  - destruct (String.eqb k' k) eqn:E; cbn; rewrite E; auto.
Qed.

Lemma field_set_field_ne k k' v o :
  k <> k' -> field k' (set_field k v o) = field k' o.
Proof.
  intros Hne. induction o as [|[k0 v0] o IH]; cbn.
  - apply String.eqb_neq in Hne. rewrite Hne. reflexivity.
  - destruct (String.eqb k0 k) eqn:E; cbn.
    + apply String.eqb_eq in E. subst k0.
      apply String.eqb_neq in Hne. rewrite Hne. reflexivity.
    + rewrite IH. reflexivity.
Qed.

(** ** One message at a time *)

Lemma handleWsMessage_start now id persona st :
  handleWsMessage now (frame_of (Start id persona)) st
  = (Normal tt,
     set_tasksGrid
       (CardNode (Card ("card-" +:+ id) "running" (placeholder persona)
                    (markup_of_persona persona))
          :: clear_empty_state (tasksGrid st))
       (set_tasks (<[id := newTask (VStr id) (VStr persona) now]> (tasks st)) st)).
Proof.
  unfold handleWsMessage. cbn -[markup_of_persona].
  unfold bind, ret, modify, gets.
  rewrite createTaskCard_newTask. cbn -[markup_of_persona].
  rewrite andb_false_r. reflexivity.
Qed.

Lemma handleWsMessage_log now id message st rec lines :
  tasks st !! id = Some rec ->
  field "logs" rec = VArr lines ->
  handleWsMessage now (frame_of (Log id message)) st
  = (Normal tt,
     let st' :=
       set_tasks (<[id := set_field "logs" (VArr (lines ++ [VStr message])) rec]>
                    (tasks st)) st in
     if strict_equal (activeTaskId st) (VStr id)
     then set_consoleOutput (consoleOutput st ++ [message]) st'
     else st').
Proof.
  intros Hrec Hlogs. unfold handleWsMessage. cbn. unfold_M. cbn.
  rewrite (tasks_get_own _ _ _ Hrec). cbn. rewrite Hlogs. cbn.
  destruct (strict_equal (activeTaskId st) (VStr id)); reflexivity.
Qed.

Lemma handleWsMessage_complete now id status result st rec c :
  tasks st !! id = Some rec ->
  getElementById ("card-" +:+ id) (tasksGrid st) = Some c ->
  has_badge c = true ->
  handleWsMessage now (frame_of (Complete id status result)) st
  = (Normal tt,
     let result' := match result with VUndefined => VNull | _ => result end in
     let st' :=
       set_tasks (<[id := set_field "result" result'
                            (set_field "status" (VStr status) rec)]> (tasks st))
         (set_tasksGrid (set_card_status ("card-" +:+ id) status (tasksGrid st)) st) in
     if strict_equal (activeTaskId st) (VStr id)
     then
       if String.eqb status "success" || String.eqb status "failed"
       then set_resultArea (Some result') (set_modalStatus status st')
       else set_modalStatus status st'
     else st').
Proof.
  intros Hrec Hcard Hintact. unfold handleWsMessage. cbn. unfold_M. cbn.
  rewrite (tasks_get_own _ _ _ Hrec). cbn. unfold updateTaskCard. unfold_M. cbn.
  rewrite Hcard. cbn. rewrite Hintact. cbn. rewrite Hrec. cbn.
  destruct (strict_equal (activeTaskId st) (VStr id)); [|reflexivity].
  unfold showResult, modify.
  destruct (String.eqb status "success" || String.eqb status "failed"); reflexivity.
Qed.

(** A Complete for a card without its badge: the class of the card is
    written, then [badge.className] throws. *)
Lemma handleWsMessage_complete_broken now id status result st c :
  is_Some (tasks_get (tasks st) id) ->
  getElementById ("card-" +:+ id) (tasksGrid st) = Some c ->
  has_badge c = false ->
  handleWsMessage now (frame_of (Complete id status result)) st
  = (Throw TypeError,
     set_tasksGrid (set_card_status ("card-" +:+ id) status (tasksGrid st)) st).
Proof.
  intros [rec Hrec] Hcard Hbroken. unfold handleWsMessage. cbn. unfold_M. cbn.
  rewrite Hrec. cbn. unfold updateTaskCard. unfold_M. cbn.
  rewrite Hcard. cbn. rewrite Hbroken. reflexivity.
Qed.

(** ** Start, logs, complete *)

Lemma apply_all_cons ne evs st :
  apply_all (ne :: evs) st = apply_all evs (apply (fst ne) (snd ne) st).
Proof. reflexivity. Qed.

Lemma apply_all_app evs evs' st :
  apply_all (evs ++ evs') st = apply_all evs' (apply_all evs st).
Proof. unfold apply_all. apply fold_left_app. Qed.

(** Log events for a known record only grow its [logs]; the card stays. *)
Lemma apply_all_logs id logs : forall st rec lines,
  tasks st !! id = Some rec ->
  field "logs" rec = VArr lines ->
  exists rec',
    tasks (apply_all (log_events id logs) st) !! id = Some rec' /\
    field "logs" rec' = VArr (lines ++ messages logs) /\
    (forall k, k <> "logs" -> field k rec' = field k rec) /\
    tasksGrid (apply_all (log_events id logs) st) = tasksGrid st.
Proof.
  induction logs as [|[t m] logs IH]; intros st rec lines Hrec Hlogs.
  - exists rec. cbn. rewrite app_nil_r. auto.
  - cbn [log_events map]. rewrite apply_all_cons. cbn [fst snd].
    set (rec1 := set_field "logs" (VArr (lines ++ [VStr m])) rec).
    assert (Hst : tasks (apply t (Log id m) st) = <[id := rec1]> (tasks st)
                  /\ tasksGrid (apply t (Log id m) st) = tasksGrid st).
    { unfold apply. rewrite (handleWsMessage_log _ _ _ _ rec lines) by assumption.
      cbn. destruct (strict_equal (activeTaskId st) (VStr id)); auto. }
    destruct Hst as [Ht Hg].
    destruct (IH (apply t (Log id m) st) rec1 (lines ++ [VStr m]))
      as (rec' & Hrec' & Hlogs' & Hother & Hcard').
    + rewrite Ht. apply lookup_insert_eq.
    + apply field_set_field_eq.
    + exists rec'. split; [exact Hrec'|]. split.
      * rewrite Hlogs'. rewrite <- app_assoc. reflexivity.
      * split; [|rewrite <- Hg; exact Hcard'].
        intros k Hk. rewrite Hother by assumption.
        apply field_set_field_ne. congruence.
Qed.

(** C1, a defect of the code.  [createTaskCard] writes the persona of a
    Start into the markup of the card as it comes.  With the persona [<!--]
    the card loses its status badge; the Complete that follows the Start
    and one Log then throws in [updateTaskCard], at [badge.className],
    before it reaches the record.  The record for [t1] keeps the status
    running and the result null, where the claim has the status and the
    result of the Complete event; only the class of the card has changed. *)
Theorem C1_markup_in_persona_blocks_complete :
  tasks initial_state !! "t1" = None /\
  getElementById "card-t1"
    (tasksGrid (apply_all [("T0", Start "t1" "<!--"); ("T1", Log "t1" "searching")]
                  initial_state))
    = Some (Card "card-t1" "running" "Execution in progress..." Broken) /\
  fst (handleWsMessage "T2"
         (frame_of (Complete "t1" "success" (VObj [("message", VStr "done")])))
         (apply_all [("T0", Start "t1" "<!--"); ("T1", Log "t1" "searching")]
            initial_state))
    = Throw TypeError /\
  tasks (apply_all [("T0", Start "t1" "<!--"); ("T1", Log "t1" "searching");
                    ("T2", Complete "t1" "success" (VObj [("message", VStr "done")]))]
           initial_state) !! "t1"
    = Some [("id", VStr "t1"); ("persona", VStr "<!--"); ("status", VStr "running");
            ("created_at", VStr "T0"); ("logs", VArr [VStr "searching"]);
            ("result", VNull); ("payload", VObj [])] /\
  tasksGrid (apply_all [("T0", Start "t1" "<!--"); ("T1", Log "t1" "searching");
                        ("T2", Complete "t1" "success"
                                 (VObj [("message", VStr "done")]))]
               initial_state)
    = [CardNode (Card "card-t1" "success" "Execution in progress..." Broken)].
Proof. repeat split; vm_compute; reflexivity. Qed.

(** ** A second Start *)

(** C2, refuted as stated: a Start for the known [t1] resets its status
    and logs and rewrites [created_at]; and applying one Start twice does
    not give the record that applying it once gives. *)
Lemma C2_counterexample :
  tasks finished_t1 !! "t1"
    = Some [("id", VStr "t1"); ("persona", VStr "shopper");
            ("status", VStr "success"); ("created_at", VStr "T0");
            ("logs", VArr [VStr "searching"]);
            ("result", VObj [("message", VStr "done")]); ("payload", VObj [])] /\
  tasks (apply "T3" (Start "t1" "shopper") finished_t1) !! "t1"
    = Some [("id", VStr "t1"); ("persona", VStr "shopper");
            ("status", VStr "running"); ("created_at", VStr "T3");
            ("logs", VArr []); ("result", VNull); ("payload", VObj [])] /\
  tasks (apply "T1" (Start "t1" "shopper")
           (apply "T0" (Start "t1" "shopper") initial_state)) !! "t1"
    <> tasks (apply "T0" (Start "t1" "shopper") initial_state) !! "t1".
Proof.
  split; [vm_compute; reflexivity|].
  split; [vm_compute; reflexivity|].
  vm_compute. discriminate.
Qed.

(** C2, amended. A Start event installs a fresh record for its identifier
    whether or not the identifier is known: identifier and persona are the
    event's, status is running, logs are empty, result is null, payload is
    empty and [created_at] is the clock reading of this application; no
    other identifier is touched.  Applied twice, the same Start leaves the
    record of the second application, equal to that of the first in every
    field but [created_at]. *)
Theorem C2_start_replaces st now1 now2 id persona :
  let once := apply now1 (Start id persona) st in
  let twice := apply now2 (Start id persona) once in
  tasks once !! id = Some (newTask (VStr id) (VStr persona) now1) /\
  tasks twice !! id = Some (newTask (VStr id) (VStr persona) now2) /\
  newTask (VStr id) (VStr persona) now2
    = set_field "created_at" (VStr now2) (newTask (VStr id) (VStr persona) now1) /\
  (forall id', id' <> id -> tasks once !! id' = tasks st !! id').
Proof.
  cbn zeta. unfold apply. rewrite !handleWsMessage_start. cbn.
  rewrite !lookup_insert_eq. repeat split.
  intros id' Hne. apply lookup_insert_ne. congruence.
Qed.

(** ** A second Complete *)

(** C3, refuted as stated: [t1] has status success, yet a later Complete
    carrying failed overwrites both its status and its result. *)
Lemma C3_counterexample :
  field "status" <$> tasks finished_t1 !! "t1" = Some (VStr "success") /\
  field "result" <$> tasks finished_t1 !! "t1"
    = Some (VObj [("message", VStr "done")]) /\
  tasks (apply "T3" (Complete "t1" "failed" (VObj [("error", VStr "late")]))
           finished_t1) !! "t1"
    = Some [("id", VStr "t1"); ("persona", VStr "shopper");
            ("status", VStr "failed"); ("created_at", VStr "T0");
            ("logs", VArr [VStr "searching"]);
            ("result", VObj [("error", VStr "late")]); ("payload", VObj [])].
Proof. repeat split; vm_compute; reflexivity. Qed.

(** C3, amended. A Complete event for an identifier that is in the store
    and has its card in a grid of intact cards is applied whatever the
    current status of the record, terminal or not: status and result become
    those of the event (an absent result becomes null), every other field
    is kept. *)
Theorem C3_last_complete_wins st now id status result rec c :
  tasks st !! id = Some rec ->
  getElementById ("card-" +:+ id) (tasksGrid st) = Some c ->
  intact_grid (tasksGrid st) = true ->
  exists rec',
    tasks (apply now (Complete id status result) st) !! id = Some rec' /\
    field "status" rec' = VStr status /\
    field "result" rec'
      = match result with VUndefined => VNull | _ => result end /\
    (forall k, k <> "status" -> k <> "result" -> field k rec' = field k rec).
Proof.
  intros Hrec Hcard Hgrid. unfold apply.
  rewrite (handleWsMessage_complete _ _ _ _ _ rec c)
    by eauto using getElementById_intact, card_intact_has_badge.
  eexists. split.
  { cbn [snd].
    destruct (strict_equal (activeTaskId st) (VStr id));
      [destruct (String.eqb status "success" || String.eqb status "failed")|];
      cbn; apply lookup_insert_eq. }
  split.
  { rewrite field_set_field_ne by discriminate. apply field_set_field_eq. }
  split; [apply field_set_field_eq|].
  intros k Hs Hr. rewrite !field_set_field_ne by congruence. reflexivity.
Qed.

Lemma C3_witness :
  tasks finished_t1 !! "t1" = Some finished_t1_record /\
  getElementById ("card-" +:+ "t1") (tasksGrid finished_t1)
    = Some (Card "card-t1" "success" "Finding items" Intact) /\
  intact_grid (tasksGrid finished_t1) = true /\
  exists rec',
    tasks (apply "T3" (Complete "t1" "failed" VNull) finished_t1) !! "t1"
      = Some rec' /\
    field "status" rec' = VStr "failed" /\
    field "result" rec' = VNull /\
    (forall k, k <> "status" -> k <> "result" ->
       field k rec' = field k finished_t1_record).
Proof.
  assert (H1 : tasks finished_t1 !! "t1" = Some finished_t1_record)
    by (vm_compute; reflexivity).
  assert (H2 : getElementById ("card-" +:+ "t1") (tasksGrid finished_t1)
               = Some (Card "card-t1" "success" "Finding items" Intact))
    by (vm_compute; reflexivity).
  assert (H3 : intact_grid (tasksGrid finished_t1) = true)
    by (vm_compute; reflexivity).
  split; [exact H1|]. split; [exact H2|]. split; [exact H3|].
  exact (C3_last_complete_wins finished_t1 "T3" "t1" "failed" VNull
           finished_t1_record _ H1 H2 H3).
Defined.

(** ** Messages that are not a Start *)

(** A message that is not a start and whose identifier reads as
    [undefined] in the store only issues a fetch. *)
Lemma handleWsMessage_unknown now payload st k :
  payload <> VNull -> payload <> VUndefined ->
  is_str (prop payload "type") "start" = false ->
  ToString (prop payload "task_id") = Some k ->
  tasks_get (tasks st) k = None ->
  handleWsMessage now payload st = fetchTasks st.
Proof.
  intros Hn Hu Hstart Hk Hnone. unfold handleWsMessage.
  destruct payload; try congruence;
    rewrite Hstart; unfold_M; rewrite Hk, Hnone; reflexivity.
Qed.

(** A message whose type is none of the three. *)
Lemma handleWsMessage_other now payload st :
  payload <> VNull -> payload <> VUndefined ->
  is_str (prop payload "type") "start" = false ->
  is_str (prop payload "type") "log" = false ->
  is_str (prop payload "type") "complete" = false ->
  handleWsMessage now payload st
  = match ToString (prop payload "task_id") with
    | None => (Throw TypeError, st)
    | Some k =>
        match tasks_get (tasks st) k with
        | None => fetchTasks st
        | Some _ => (Normal tt, st)
        end
    end.
Proof.
  intros Hn Hu Hstart Hlog Hcomplete. unfold handleWsMessage.
  destruct payload; try congruence;
    rewrite Hstart, Hlog, Hcomplete; unfold_M;
    (destruct (ToString _) as [k|]; [|reflexivity]);
    destruct (tasks_get (tasks st) k); reflexivity.
Qed.

(** A Log for a name that the store only inherits. *)
Lemma handleWsMessage_log_inherited now id message st :
  tasks st !! id = None ->
  inherited id = true ->
  handleWsMessage now (frame_of (Log id message)) st = (Throw TypeError, st).
Proof.
  intros Hnone Hin. unfold handleWsMessage. cbn. unfold_M. cbn.
  unfold tasks_get. rewrite Hnone, Hin. reflexivity.
Qed.

(** C4, a defect of the code.  The guard before a Log or Complete is
    [!tasks[task_id]], and [tasks] is a plain object: for the identifier
    [constructor], which the store does not hold, it reads the member that
    every object inherits from [Object.prototype].  The Log is then taken
    for one of a known task: no fetch is issued, and [.logs.push] throws on
    the inherited member; [ws.onmessage] logs the frame as ignored.  The
    claim has one snapshot reload here. *)
Theorem C4_inherited_name_is_not_reloaded :
  tasks initial_state !! "constructor" = None /\
  handleWsMessage "T0" (frame_of (Log "constructor" "x")) initial_state
    = (Throw TypeError, initial_state) /\
  fetches_in_flight (apply "T0" (Log "constructor" "x") initial_state) = 0 /\
  (forall text,
     ws_onmessage "T0" (Frame text (Some (frame_of (Log "constructor" "x"))))
       initial_state
     = console_push (ConsoleLog "Ignored non-JSON WS message:" text) initial_state) /\
  handleWsMessage "T0" (frame_of (Log "t9" "x")) initial_state
    = (Normal tt, set_fetches_in_flight 1 initial_state).
Proof. repeat split. Qed.

(** ** What a handler leaves alone *)

Section Frame.
Variable P : state -> state -> Prop.
Hypothesis P_refl : forall st, P st st.
Hypothesis P_trans : forall a b c, P a b -> P b c -> P a c.

Lemma keeps_ret {A} (a : A) st : keeps P (ret a) st.
Proof. apply P_refl. Qed.

Lemma keeps_throw {A} e st : keeps P (@throw A e) st.
Proof. apply P_refl. Qed.

Lemma keeps_gets {A} (f : state -> A) st : keeps P (gets f) st.
Proof. apply P_refl. Qed.

Lemma keeps_lift_opt {A} (o : option A) st : keeps P (lift_opt o) st.
Proof. destruct o; apply P_refl. Qed.

Lemma keeps_string_method v st : keeps P (string_method v) st.
Proof. destruct v; apply P_refl. Qed.

Lemma keeps_modify f st : P st (f st) -> keeps P (modify f) st.
Proof. intros H. exact H. Qed.

Lemma keeps_bind {A B} (c : M A) (k : A -> M B) st :
  keeps P c st ->
  (forall a st', c st = (Normal a, st') -> keeps P (k a) st') ->
  keeps P (bind c k) st.
Proof.
  unfold keeps, bind. intros Hc Hk.
  destruct (c st) as [[a|e] st'] eqn:E; cbn in *.
  - eapply P_trans; [exact Hc|]. apply Hk. reflexivity.
  - exact Hc.
Qed.

End Frame.

(** Structural steps shared by the frame proofs below. *)
Ltac keeps_step Hrefl Htrans :=
  first
    [ apply (keeps_ret _ Hrefl)
    | apply (keeps_throw _ Hrefl)
    | apply (keeps_gets _ Hrefl)
    | apply (keeps_lift_opt _ Hrefl)
    | apply (keeps_string_method _ Hrefl)
    | apply (keeps_bind _ Htrans); [|intros ? ? ?]
    | match goal with
      | |- keeps _ (if ?b then _ else _) _ => destruct b
      | |- keeps _ (match ?x with _ => _ end) _ => destruct x
      end ].

Ltac from_gets :=
  repeat match goal with
         | H : gets _ _ = (Normal _, _) |- _ =>
             unfold gets in H; injection H as <- <-
         end.

Lemma same_refl {X} (proj : state -> X) st : same proj st st.
Proof. reflexivity. Qed.

Lemma same_trans {X} (proj : state -> X) a b c :
  same proj a b -> same proj b c -> same proj a c.
Proof. unfold same. congruence. Qed.

Ltac keeps_same :=
  repeat first
    [ match goal with
      | |- keeps (same ?p) _ _ => keeps_step (same_refl p) (same_trans p)
      end
    | apply keeps_modify; unfold same; cbn; congruence ].

Lemma createTaskCard_keeps_tasks task st : keeps (same tasks) (createTaskCard task) st.
Proof.
  unfold createTaskCard, getPersonaIcon, capitalize, formatTime, to_primitive,
    to_string.
  keeps_same.
Qed.

Lemma handleWsMessage_keeps {X} (proj : state -> X) now payload :
  (forall t st, proj (set_tasks t st) = proj st) ->
  (forall g st, proj (set_tasksGrid g st) = proj st) ->
  (forall l st, proj (set_consoleOutput l st) = proj st) ->
  (forall s st, proj (set_modalStatus s st) = proj st) ->
  (forall r st, proj (set_resultArea r st) = proj st) ->
  (forall n st, proj (set_fetches_in_flight n st) = proj st) ->
  forall st, keeps (same proj) (handleWsMessage now payload) st.
Proof.
  intros Ht Hg Hc Hm Hr Hf st.
  unfold handleWsMessage, updateTaskCard, createTaskCard, appendLog, showResult,
    fetchTasks, getPersonaIcon, capitalize, formatTime, to_primitive, to_string.
  keeps_same.
Qed.

(** ** What a handler depends on *)

Section Sim.
Variable R : state -> state -> Prop.

Lemma sim_ret {A} (x : A) : sim R (ret x).
Proof. intros a b H. split; [reflexivity|exact H]. Qed.

Lemma sim_throw {A} e : sim R (@throw A e).
Proof. intros a b H. split; [reflexivity|exact H]. Qed.

Lemma sim_lift_opt {A} (o : option A) : sim R (lift_opt o).
Proof. destruct o; [apply sim_ret|apply sim_throw]. Qed.

Lemma sim_string_method v : sim R (string_method v).
Proof. destruct v; first [apply sim_ret|apply sim_throw]. Qed.

Lemma sim_bind {A B} (c : M A) (k : A -> M B) :
  sim R c -> (forall x, sim R (k x)) -> sim R (bind c k).
Proof.
  intros Hc Hk a b H. unfold bind.
  destruct (Hc a b H) as [Hfst Hsnd].
  destruct (c a) as [[x|e] a'], (c b) as [[y|e'] b']; cbn in *;
    try discriminate.
  - injection Hfst as ->. apply Hk. exact Hsnd.
  - injection Hfst as ->. split; [reflexivity|assumption].
Qed.

Lemma sim_gets {A} (f : state -> A) :
  (forall a b, R a b -> f a = f b) -> sim R (gets f).
Proof. intros Hf a b H. cbn. split; [f_equal; auto|exact H]. Qed.

Lemma sim_modify (f : state -> state) :
  (forall a b, R a b -> R (f a) (f b)) -> sim R (modify f).
Proof. intros Hf a b H. split; [reflexivity|apply Hf, H]. Qed.

Lemma sim_forEach {A} (l : list A) (f : A -> M unit) :
  (forall x, sim R (f x)) -> sim R (forEach l f).
Proof.
  intros Hf. induction l as [|x l IH]; cbn.
  - apply sim_ret.
  - apply sim_bind; [apply Hf|]. intros _. exact IH.
Qed.
End Sim.

Ltac sim_respects :=
  first
    [ intros ? ? [? ?]; first [ assumption | split; cbn; congruence ]
    | intros [] [] ?; unfold same_but_fetches, set_fetches_in_flight in *;
      cbn in *; congruence ].

Ltac sim_steps :=
  repeat first
    [ apply sim_ret | apply sim_throw | apply sim_lift_opt
    | apply sim_string_method
    | apply sim_bind; [|intros ?]
    | apply sim_gets; sim_respects
    | apply sim_modify; sim_respects
    | match goal with
      | |- sim _ (if ?b then _ else _) => destruct b
      | |- sim _ (match ?x with _ => _ end) => destruct x
      end ].

Lemma createTaskCard_sim task : sim same_view (createTaskCard task).
Proof.
  unfold createTaskCard, getPersonaIcon, capitalize, formatTime, to_primitive,
    to_string.
  sim_steps.
Qed.

Lemma bind_modify {B} f (k : unit -> M B) st :
  bind (modify f) k st = k tt (f st).
Proof. reflexivity. Qed.

(** The store and the grid after a snapshot has landed are those of the
    response alone. *)
Lemma fetchTasks_resume_same_view data st st' :
  same_view (fetchTasks_resume (Body data) st) (fetchTasks_resume (Body data) st').
Proof.
  unfold fetchTasks_resume, try_catch. rewrite !bind_modify.
  match goal with
  | |- same_view (match ?c ?a with _ => _ end) (match ?c ?b with _ => _ end) =>
      assert (Hsim : sim same_view c); [|destruct (Hsim a b) as [Hfst Hsnd]]
  end.
  - destruct data as [|task data]; [unfold renderEmptyState; sim_steps|].
    apply sim_forEach. intros x. unfold to_string.
    apply sim_bind; [apply sim_lift_opt|]. intros k.
    apply sim_bind; [apply sim_modify; sim_respects|]. intros _.
    apply createTaskCard_sim.
  - split; reflexivity.
  - match goal with
    | |- same_view (match ?x with _ => _ end) (match ?y with _ => _ end) =>
        destruct x as [[u|e] a'], y as [[u'|e'] b']
    end; cbn in *; try discriminate; exact Hsnd.
Qed.

(** A message is handled alike whatever the number of fetches in flight. *)
Lemma handleWsMessage_sim now payload :
  sim same_but_fetches (handleWsMessage now payload).
Proof.
  unfold handleWsMessage, updateTaskCard, createTaskCard, appendLog, showResult,
    fetchTasks, getPersonaIcon, capitalize, formatTime, to_primitive, to_string.
  sim_steps.
Qed.

(** ** Events that arrive while the first snapshot is loading *)

(** C5, refuted as stated: while the first fetch is still in flight a
    Start for [t1] is applied to the store at once; when the snapshot
    (here an empty one) lands, the record is gone and nothing replays the
    event. *)
Lemma C5_counterexample :
  fetches_in_flight (DOMContentLoaded initial_state) = 1 /\
  tasks (DOMContentLoaded initial_state) = ∅ /\
  tasks (apply "T0" (Start "t1" "shopper") (DOMContentLoaded initial_state)) !! "t1"
    = Some (newTask (VStr "t1") (VStr "shopper") "T0") /\
  fetches_in_flight
    (apply "T0" (Start "t1" "shopper") (DOMContentLoaded initial_state)) = 1 /\
  tasks (fetchTasks_resume (Body [])
           (apply "T0" (Start "t1" "shopper") (DOMContentLoaded initial_state)))
    !! "t1" = None.
Proof. repeat split; vm_compute; reflexivity. Qed.

(** C5, amended. There is no buffer.  A push message is handled at once
    and in the same way whether or not a fetch is in flight: same
    completion, same store, same grid.  When a snapshot response lands, the
    store and the grid become those of the response alone, so whatever the
    earlier events wrote is kept only if the response carries it. *)
Theorem C5_applied_at_once_then_overwritten :
  (forall now payload st n,
     fst (handleWsMessage now payload (set_fetches_in_flight n st))
       = fst (handleWsMessage now payload st) /\
     tasks (snd (handleWsMessage now payload (set_fetches_in_flight n st)))
       = tasks (snd (handleWsMessage now payload st)) /\
     tasksGrid (snd (handleWsMessage now payload (set_fetches_in_flight n st)))
       = tasksGrid (snd (handleWsMessage now payload st))) /\
  (forall evs data st,
     tasks (fetchTasks_resume (Body data) (apply_all evs st))
       = tasks (fetchTasks_resume (Body data) st) /\
     tasksGrid (fetchTasks_resume (Body data) (apply_all evs st))
       = tasksGrid (fetchTasks_resume (Body data) st)).
Proof.
  split.
  - intros now payload st n.
    destruct (handleWsMessage_sim now payload (set_fetches_in_flight n st) st)
      as [Hfst Hsnd]; [reflexivity|].
    split; [exact Hfst|]. unfold same_but_fetches in Hsnd.
    split.
    + apply (f_equal tasks) in Hsnd. exact Hsnd.
    + apply (f_equal tasksGrid) in Hsnd. exact Hsnd.
  - intros evs data st. apply fetchTasks_resume_same_view.
Qed.

(** ** What a start writes *)

Lemma is_str_true v lit : is_str v lit = true -> v = VStr lit.
Proof.
  destruct v; cbn; try discriminate. intros H. apply String.eqb_eq in H.
  congruence.
Qed.

(** A start message writes its fresh record whether or not drawing the
    card then throws. *)
Lemma handleWsMessage_start_tasks now payload st k :
  is_str (prop payload "type") "start" = true ->
  ToString (prop payload "task_id") = Some k ->
  tasks (snd (handleWsMessage now payload st))
  = <[k := newTask (prop payload "task_id") (prop payload "persona") now]> (tasks st).
Proof.
  intros Hstart Hk.
  destruct payload as [| |b|r|s|items|fields]; try discriminate.
  apply is_str_true in Hstart. unfold handleWsMessage. cbv zeta.
  rewrite Hstart. cbn [is_str]. rewrite String.eqb_refl.
  unfold to_string. rewrite Hk. cbn [lift_opt].
  set (nt := newTask _ _ _).
  pose proof (createTaskCard_keeps_tasks nt
                (set_tasks (<[k := nt]> (tasks st)) st)) as Hkeep.
  unfold keeps, same in Hkeep. unfold bind, ret, modify, gets.
  destruct (createTaskCard nt _) as [[[]|e] s2]; cbn [snd tasks set_tasks] in *.
  - rewrite andb_false_r. cbn. symmetry. exact Hkeep.
  - symmetry. exact Hkeep.
Qed.

(** ** What a message other than a start does to the store *)

Lemma logs_extend_refl v : logs_extend v v.
Proof. left. reflexivity. Qed.

Lemma logs_extend_trans a b c :
  logs_extend a b -> logs_extend b c -> logs_extend a c.
Proof.
  intros [->|(l1 & m1 & -> & ->)] [->|(l2 & m2 & E & ->)].
  - left. reflexivity.
  - right. eauto.
  - right. eauto.
  - injection E as <-. right. exists l1, (m1 ++ m2). rewrite app_assoc. auto.
Qed.

Lemma record_grown_refl rec : record_grown rec rec.
Proof. split; [reflexivity|apply logs_extend_refl]. Qed.

Lemma record_grown_trans a b c :
  record_grown a b -> record_grown b c -> record_grown a c.
Proof.
  intros [Hab Lab] [Hbc Lbc]. split.
  - intros f H1 H2 H3. rewrite Hbc, Hab by assumption. reflexivity.
  - eapply logs_extend_trans; eassumption.
Qed.

Lemma store_grown_refl st : store_grown st st.
Proof.
  split; [|auto]. intros k rec H. exists rec. split; [exact H|].
  apply record_grown_refl.
Qed.

Lemma store_grown_trans a b c : store_grown a b -> store_grown b c -> store_grown a c.
Proof.
  intros [Hab Kab] [Hbc Kbc]. split; [|auto].
  intros k rec H. destruct (Hab k rec H) as (rec1 & H1 & G1).
  destruct (Hbc k rec1 H1) as (rec2 & H2 & G2).
  exists rec2. split; [exact H2|]. eapply record_grown_trans; eassumption.
Qed.

Lemma store_grown_same_tasks a b : tasks a = tasks b -> store_grown a b.
Proof.
  intros E. split.
  - intros k rec H. exists rec. rewrite <- E. split; [exact H|].
    apply record_grown_refl.
  - intros k. rewrite E. auto.
Qed.

Lemma store_grown_insert st k rec rec' :
  tasks st !! k = Some rec ->
  record_grown rec rec' ->
  store_grown st (set_tasks (<[k := rec']> (tasks st)) st).
Proof.
  intros Hrec Hg. split.
  - intros k0 rec0 H0. cbn. destruct (decide (k = k0)) as [->|Hne].
    + rewrite lookup_insert_eq. exists rec'. split; [reflexivity|].
      congruence.
    + rewrite lookup_insert_ne by assumption. exists rec0.
      split; [exact H0|apply record_grown_refl].
  - intros k0. cbn. destruct (decide (k = k0)) as [->|Hne].
    + intros _. eauto.
    + rewrite lookup_insert_ne by assumption. auto.
Qed.

Lemma record_grown_log rec lines message :
  field "logs" rec = VArr lines ->
  record_grown rec (set_field "logs" (VArr (lines ++ [message])) rec).
Proof.
  intros H. split.
  - intros f Hf _ _. apply field_set_field_ne. congruence.
  - right. exists lines, [message]. split; [exact H|apply field_set_field_eq].
Qed.

Lemma record_grown_complete rec status result :
  record_grown rec (set_field "result" result (set_field "status" status rec)).
Proof.
  split.
  - intros f _ Hs Hr. rewrite !field_set_field_ne by congruence. reflexivity.
  - left. rewrite !field_set_field_ne by discriminate. reflexivity.
Qed.

Lemma handleWsMessage_store_grown now payload st :
  is_str (prop payload "type") "start" = false ->
  keeps store_grown (handleWsMessage now payload) st.
Proof.
  intros Hstart.
  unfold handleWsMessage. cbv zeta. rewrite Hstart.
  unfold updateTaskCard, appendLog, showResult,
    fetchTasks, getPersonaIcon, capitalize, formatTime, to_primitive, to_string.
  repeat first
    [ match goal with
      | |- keeps _ (match ?x with _ => _ end) _ => destruct x eqn:?
      end
    | keeps_step store_grown_refl store_grown_trans
    | apply keeps_modify; apply store_grown_same_tasks; reflexivity
    | apply keeps_modify; from_gets;
      eapply store_grown_insert;
      [ first [ eassumption | eapply tasks_get_logs; eassumption ] |];
      first [ apply record_grown_log; assumption | apply record_grown_complete ] ].
Qed.

(** ** Fetches issued by a message *)

Lemma updateTaskCard_keeps {X} (proj : state -> X) taskId status result :
  (forall t st, proj (set_tasks t st) = proj st) ->
  (forall g st, proj (set_tasksGrid g st) = proj st) ->
  (forall s st, proj (set_modalStatus s st) = proj st) ->
  (forall r st, proj (set_resultArea r st) = proj st) ->
  forall st, keeps (same proj) (updateTaskCard taskId status result) st.
Proof.
  intros Ht Hg Hm Hr st.
  unfold updateTaskCard, showResult, to_string. keeps_same.
Qed.

Lemma appendLog_keeps {X} (proj : state -> X) message :
  (forall l st, proj (set_consoleOutput l st) = proj st) ->
  forall st, keeps (same proj) (appendLog message) st.
Proof. intros Hc st. unfold appendLog, to_string. keeps_same. Qed.

Lemma createTaskCard_keeps {X} (proj : state -> X) task :
  (forall g st, proj (set_tasksGrid g st) = proj st) ->
  forall st, keeps (same proj) (createTaskCard task) st.
Proof.
  intros Hg st.
  unfold createTaskCard, getPersonaIcon, capitalize, formatTime, to_primitive,
    to_string.
  keeps_same.
Qed.

Lemma bind_ret_l {A B} (a : A) (k : A -> M B) st : bind (ret a) k st = k a st.
Proof. reflexivity. Qed.

Lemma bind_gets {A B} (f : state -> A) (k : A -> M B) st :
  bind (gets f) k st = k (f st) st.
Proof. reflexivity. Qed.

(** The fetches in flight after a message has been handled. *)
Lemma handleWsMessage_fetches now payload st :
  fetches_in_flight (snd (handleWsMessage now payload st))
  = if reload_needed payload st
    then S (fetches_in_flight st)
    else fetches_in_flight st.
Proof.
  assert (Hsame : forall (c : M unit) s,
            keeps (same fetches_in_flight) c s ->
            fetches_in_flight (snd (c s)) = fetches_in_flight s).
  { intros c s H. symmetry. exact H. }
  unfold reload_needed, handleWsMessage. cbv zeta.
  destruct payload as [| |b|r|s|items|fields]; try reflexivity.
  all: destruct (is_str (prop _ "type") "start") eqn:Hstart; cbn [negb andb].
  all: try solve
    [ apply Hsame; unfold to_string, fetchTasks;
      repeat first
        [ apply createTaskCard_keeps; reflexivity
        | apply updateTaskCard_keeps; reflexivity
        | apply appendLog_keeps; reflexivity
        | rewrite andb_false_r
        | match goal with
          | |- keeps (same ?p) _ _ =>
              keeps_step (same_refl p) (same_trans p)
          end
        | apply keeps_modify; reflexivity ] ].
  all: rewrite bind_ret_l; unfold to_string;
    destruct (ToString (prop _ "task_id")) as [k|]; [|reflexivity];
    cbn [lift_opt]; rewrite bind_ret_l, bind_gets;
    destruct (tasks_get (tasks st) k) as [rec|] eqn:Hrec; [|reflexivity];
    rewrite bool_decide_true by eauto; cbn [negb andb];
    apply Hsame;
    repeat first
      [ apply updateTaskCard_keeps; reflexivity
      | apply appendLog_keeps; reflexivity
      | match goal with
        | |- keeps (same ?p) _ _ =>
            keeps_step (same_refl p) (same_trans p)
        end
      | apply keeps_modify; reflexivity ].
Qed.

(** ** Frames of no known shape *)

(** C6, refuted as stated: the frames [42] and [{}] are valid JSON of none
    of the three shapes, and each makes the handler issue a snapshot
    fetch. *)
Lemma C6_counterexample :
  ws_onmessage "T0" (Frame "42" (Some (VNum "42"))) initial_state
    = set_fetches_in_flight 1 initial_state /\
  ws_onmessage "T0" (Frame "{}" (Some (VObj []))) initial_state
    = set_fetches_in_flight 1 initial_state /\
  fetches_in_flight initial_state = 0.
Proof. repeat split. Qed.

(** C6, amended. A frame that is not valid JSON, or is the JSON value
    null, is dropped with one local diagnostic line and nothing else.  Any
    other frame is handled without validation, whatever fields it has or
    lacks.  The connection is never touched and at most one snapshot fetch
    is issued.  A frame whose [task_id] cannot be made a key is dropped with
    the diagnostic line.  A frame of type start writes a fresh record under
    the string of its [task_id] and issues no fetch.  A frame whose type is
    none of start, log and complete changes neither store nor grid, and has
    no effect at all when its [task_id] is a key of the store.  On a store
    that holds no record under [__proto__], a frame of a type other than
    start adds and removes no record and changes at most the logs, the
    status and the result of records already stored; and a frame whose type
    is none of the three issues one snapshot fetch when its [task_id] (read
    as [undefined] when absent) is no key of the store and no name that
    objects inherit. *)
Theorem C6_frames_of_no_known_shape now event st :
  (JSON_parse event = None \/ JSON_parse event = Some VNull ->
   ws_onmessage now event st = console_push (ignored event) st) /\
  (forall payload,
     JSON_parse event = Some payload ->
     payload <> VNull -> payload <> VUndefined ->
     connectionStatus (ws_onmessage now event st) = connectionStatus st /\
     reconnect_timers (ws_onmessage now event st) = reconnect_timers st /\
     (fetches_in_flight (ws_onmessage now event st) = fetches_in_flight st \/
      fetches_in_flight (ws_onmessage now event st) = S (fetches_in_flight st)) /\
     (ToString (prop payload "task_id") = None ->
      ws_onmessage now event st = console_push (ignored event) st) /\
     (is_str (prop payload "type") "start" = true ->
      forall k, ToString (prop payload "task_id") = Some k ->
        tasks (ws_onmessage now event st) !! k
          = Some (newTask (prop payload "task_id") (prop payload "persona") now) /\
        fetches_in_flight (ws_onmessage now event st) = fetches_in_flight st) /\
     (is_str (prop payload "type") "start" = false ->
      tasks st !! "__proto__" = None ->
      store_grown st (ws_onmessage now event st)) /\
     (is_str (prop payload "type") "start" = false ->
      is_str (prop payload "type") "log" = false ->
      is_str (prop payload "type") "complete" = false ->
      forall k, ToString (prop payload "task_id") = Some k ->
        tasks (ws_onmessage now event st) = tasks st /\
        tasksGrid (ws_onmessage now event st) = tasksGrid st /\
        (is_Some (tasks st !! k) -> ws_onmessage now event st = st) /\
        (tasks st !! k = None -> inherited k = false ->
         tasks st !! "__proto__" = None ->
         ws_onmessage now event st
           = set_fetches_in_flight (S (fetches_in_flight st)) st))).
Proof.
  split.
  { intros [H|H]; unfold ws_onmessage, try_catch; rewrite H; reflexivity. }
  intros payload Hp Hn Hu.
  assert (Hon : forall (proj : state -> nat),
            (forall e s, proj (console_push e s) = proj s) ->
            proj (ws_onmessage now event st)
              = proj (snd (handleWsMessage now payload st))).
  { intros proj Hproj. unfold ws_onmessage, try_catch. rewrite Hp.
    destruct (handleWsMessage now payload st) as [[u|e] st']; cbn; auto. }
  split.
  { unfold ws_onmessage, try_catch. rewrite Hp.
    pose proof (handleWsMessage_keeps connectionStatus now payload
                  ltac:(reflexivity) ltac:(reflexivity) ltac:(reflexivity)
                  ltac:(reflexivity) ltac:(reflexivity) ltac:(reflexivity) st)
      as Hc.
    unfold keeps, same in Hc.
    destruct (handleWsMessage now payload st) as [[u|e] st']; cbn in *; congruence. }
  split.
  { unfold ws_onmessage, try_catch. rewrite Hp.
    pose proof (handleWsMessage_keeps reconnect_timers now payload
                  ltac:(reflexivity) ltac:(reflexivity) ltac:(reflexivity)
                  ltac:(reflexivity) ltac:(reflexivity) ltac:(reflexivity) st)
      as Hc.
    unfold keeps, same in Hc.
    destruct (handleWsMessage now payload st) as [[u|e] st']; cbn in *; congruence. }
  split.
  { rewrite (Hon fetches_in_flight) by reflexivity.
    rewrite handleWsMessage_fetches. destruct (reload_needed payload st); auto. }
  split.
  { intros Hk. unfold ws_onmessage, try_catch. rewrite Hp.
    assert (E : handleWsMessage now payload st = (Throw TypeError, st)).
    { unfold handleWsMessage. cbv zeta.
      destruct payload as [| |b|r|s|items|fields]; try congruence;
        destruct (is_str _ "start"); unfold to_string; rewrite Hk; reflexivity. }
    rewrite E. reflexivity. }
  split.
  { intros Hstart k Hk. split.
    - assert (Ht : tasks (ws_onmessage now event st)
                   = tasks (snd (handleWsMessage now payload st))).
      { unfold ws_onmessage, try_catch. rewrite Hp.
        destruct (handleWsMessage now payload st) as [[u|e] st']; reflexivity. }
      rewrite Ht, (handleWsMessage_start_tasks _ _ _ k) by assumption.
      apply lookup_insert_eq.
    - rewrite (Hon fetches_in_flight) by reflexivity.
      rewrite handleWsMessage_fetches. unfold reload_needed.
      destruct payload; try congruence; rewrite Hstart; reflexivity. }
  split.
  { intros Hstart _. unfold ws_onmessage, try_catch. rewrite Hp.
    pose proof (handleWsMessage_store_grown now payload st Hstart) as H.
    unfold keeps in H.
    destruct (handleWsMessage now payload st) as [[u|e] st']; cbn in H.
    - exact H.
    - eapply store_grown_trans; [exact H|].
      apply store_grown_same_tasks. reflexivity. }
  intros Hs Hl Hc k Hk.
  assert (E : ws_onmessage now event st
              = match tasks_get (tasks st) k with
                | Some _ => st
                | None => set_fetches_in_flight (S (fetches_in_flight st)) st
                end).
  { unfold ws_onmessage, try_catch. rewrite Hp.
    rewrite handleWsMessage_other by assumption. rewrite Hk.
    destruct (tasks_get (tasks st) k); reflexivity. }
  rewrite E. split; [destruct (tasks_get (tasks st) k); reflexivity|].
  split; [destruct (tasks_get (tasks st) k); reflexivity|]. split.
  - intros [rec Hrec]. rewrite (tasks_get_own _ _ _ Hrec). reflexivity.
  - intros Hnone Hin _.
    assert (Hget : tasks_get (tasks st) k = None) by (apply tasks_get_None; auto).
    rewrite Hget. reflexivity.
Qed.

Lemma C6_witness :
  (JSON_parse (Frame "hello" None) = None
   \/ JSON_parse (Frame "hello" None) = Some VNull) /\
  ws_onmessage "T0" (Frame "hello" None) finished_t1
    = console_push (ignored (Frame "hello" None)) finished_t1 /\
  JSON_parse (Frame "42" (Some (VNum "42"))) = Some (VNum "42") /\
  is_str (prop (VNum "42") "type") "start" = false /\
  is_str (prop (VNum "42") "type") "log" = false /\
  is_str (prop (VNum "42") "type") "complete" = false /\
  ToString (prop (VNum "42") "task_id") = Some "undefined" /\
  tasks finished_t1 !! "undefined" = None /\
  inherited "undefined" = false /\
  tasks finished_t1 !! "__proto__" = None /\
  ws_onmessage "T0" (Frame "42" (Some (VNum "42"))) finished_t1
    = set_fetches_in_flight 1 finished_t1 /\
  store_grown finished_t1
    (ws_onmessage "T0" (Frame "42" (Some (VNum "42"))) finished_t1).
Proof.
  split; [left; reflexivity|]. split.
  { apply (C6_frames_of_no_known_shape "T0" (Frame "hello" None) finished_t1).
    left. reflexivity. }
  do 5 (split; [reflexivity|]).
  assert (H1 : tasks finished_t1 !! "undefined" = None) by (vm_compute; reflexivity).
  assert (H2 : tasks finished_t1 !! "__proto__" = None) by (vm_compute; reflexivity).
  split; [exact H1|]. split; [reflexivity|]. split; [exact H2|].
  destruct (C6_frames_of_no_known_shape "T0" (Frame "42" (Some (VNum "42")))
              finished_t1) as [_ H].
  destruct (H (VNum "42") eq_refl ltac:(discriminate) ltac:(discriminate))
    as (_ & _ & _ & _ & _ & Hgrown & Hother).
  split; [|exact (Hgrown eq_refl H2)].
  destruct (Hother eq_refl eq_refl eq_refl "undefined" eq_refl)
    as (_ & _ & _ & Hfetch).
  rewrite (Hfetch H1 eq_refl H2). reflexivity.
Defined.

(** ** A snapshot that fails to load *)

(** C7, refuted as stated: on the page that shows [t1], a fetch that is
    rejected and a response that is not JSON leave every node of the page
    as it was.  The failure reaches the browser console only; nothing
    surfaces it to the operator. *)
Lemma C7_counterexample :
  page (fetchTasks_resume FetchRejected finished_t1) = page finished_t1 /\
  page (fetchTasks_resume BodyNotJson finished_t1) = page finished_t1 /\
  console (fetchTasks_resume FetchRejected finished_t1)
    = console finished_t1 ++ [ConsoleError "Failed to fetch tasks:" TypeError] /\
  console (fetchTasks_resume BodyNotJson finished_t1)
    = console finished_t1 ++ [ConsoleError "Failed to fetch tasks:" SyntaxError].
Proof. repeat split. Qed.

(** C7, amended. When the request fails or the response is not JSON, the
    store is exactly what it was, no record removed, added or modified.  The
    failure is written to the browser console with [console.error] and to
    nothing else: no node of the page changes, and the state differs only
    in that console entry and in the fetch being no longer in flight. *)
Theorem C7_failed_snapshot_keeps_store st :
  fetchTasks_resume FetchRejected st
    = console_push (ConsoleError "Failed to fetch tasks:" TypeError)
        (set_fetches_in_flight (pred (fetches_in_flight st)) st) /\
  fetchTasks_resume BodyNotJson st
    = console_push (ConsoleError "Failed to fetch tasks:" SyntaxError)
        (set_fetches_in_flight (pred (fetches_in_flight st)) st) /\
  (forall r, r = FetchRejected \/ r = BodyNotJson ->
     tasks (fetchTasks_resume r st) = tasks st /\
     page (fetchTasks_resume r st) = page st /\
     exists e, console (fetchTasks_resume r st)
               = console st ++ [ConsoleError "Failed to fetch tasks:" e]).
Proof.
  repeat split; destruct H; subst r; try reflexivity; eexists; reflexivity.
Qed.

(** The same catch block also takes a throw that comes after the store
    was reset: a response that parses but holds a record without a status
    replaces the store by that record alone before drawing its card
    throws. *)
Example fetchTasks_resume_record_without_status :
  fetchTasks_resume (Body [[("id", VStr "t5"); ("persona", VStr "rider")]])
    finished_t1
  = console_push (ConsoleError "Failed to fetch tasks:" TypeError)
      (set_tasksGrid []
         (set_tasks (<["t5" := [("id", VStr "t5"); ("persona", VStr "rider")]]> ∅)
            finished_t1)).
Proof. vm_compute. reflexivity. Qed.

(** So does a response whose JSON is an object, such as the body of an
    error reply: store and grid are empty when [data.forEach] throws. *)
Example fetchTasks_resume_other_object :
  fetchTasks_resume_other (OtherObj [("detail", VStr "Not Found")]) finished_t1
  = console_push (ConsoleError "Failed to fetch tasks:" TypeError)
      (set_tasksGrid [] (set_tasks ∅ finished_t1)).
Proof. vm_compute. reflexivity. Qed.

Lemma C7_witness :
  (FetchRejected = FetchRejected \/ FetchRejected = BodyNotJson) /\
  tasks (fetchTasks_resume FetchRejected finished_t1) = tasks finished_t1 /\
  page (fetchTasks_resume FetchRejected finished_t1) = page finished_t1 /\
  exists e, console (fetchTasks_resume FetchRejected finished_t1)
            = console finished_t1 ++ [ConsoleError "Failed to fetch tasks:" e].
Proof.
  split; [left; reflexivity|].
  apply (C7_failed_snapshot_keeps_store finished_t1). left. reflexivity.
Defined.

(** ** The summary *)

Lemma getTaskSummary_summarize task : getTaskSummary task = summarize task.
Proof.
  unfold getTaskSummary, summarize, is_str.
  destruct (field "persona" task) as [| |b|r|persona|items|fields]; try reflexivity.
  cbn [table_lookup summary_table].
  repeat (destruct (String.eqb persona _); [reflexivity|]). reflexivity.
Qed.

(** C8, refuted as stated: with the summarised field absent, a shopper and
    a rider get different texts, so the stand-in is not persona-neutral;
    the neutral text is that of a persona outside the table. *)
Lemma C8_counterexample :
  getTaskSummary [("persona", VStr "shopper"); ("payload", VObj [])]
    = Some "Finding items" /\
  getTaskSummary [("persona", VStr "rider"); ("payload", VObj [])]
    = Some "Ride to destination" /\
  getTaskSummary [("persona", VStr "shopper"); ("payload", VObj [])]
    <> getTaskSummary [("persona", VStr "rider"); ("payload", VObj [])] /\
  getTaskSummary [("persona", VStr "auditor"); ("payload", VObj [])]
    = Some "Execution in progress...".
Proof. repeat split; try reflexivity. discriminate. Qed.

(** C8, amended. [getTaskSummary] is a function of the record alone and
    agrees with the table: for a persona of the table it wraps the selected
    payload field when that field is a non-empty string, and when the field
    is absent or falsy it returns a stand-in text that depends on the
    persona (Finding items, Ride to destination, Meds: Prescription,
    Event: Party, Order: Food); only a persona outside the table yields the
    persona-neutral [Execution in progress...]. *)
Theorem C8_summary_by_persona task :
  getTaskSummary task = summarize task /\
  (forall persona prefix name missing,
     field "persona" task = VStr persona ->
     table_lookup persona summary_table = Some (prefix, name, missing) ->
     (forall s, prop (or_else (field "payload" task) (VObj [])) name = VStr s ->
                s <> "" -> getTaskSummary task = Some (prefix +:+ s)) /\
     (truthy (prop (or_else (field "payload" task) (VObj [])) name) = false ->
      getTaskSummary task = Some (prefix +:+ missing) /\
      prefix +:+ missing = placeholder persona)) /\
  (forall persona,
     field "persona" task = VStr persona ->
     table_lookup persona summary_table = None ->
     getTaskSummary task = Some "Execution in progress...") /\
  ((forall persona, field "persona" task <> VStr persona) ->
   getTaskSummary task = Some "Execution in progress...").
Proof.
  split; [apply getTaskSummary_summarize|].
  rewrite getTaskSummary_summarize. unfold summarize.
  split; [|split].
  - intros persona prefix name missing Hp Ht. rewrite Hp, Ht. split.
    + intros s Hs Hne. unfold or_else at 1. rewrite Hs. cbn.
      apply String.eqb_neq in Hne. rewrite Hne. reflexivity.
    + intros Hf. unfold or_else at 1. rewrite Hf. split; [reflexivity|].
      revert Ht. unfold placeholder. cbn.
      repeat (destruct (String.eqb persona _);
              [intros [= <- <- <-]; reflexivity|]).
      discriminate.
  - intros persona Hp Ht. rewrite Hp, Ht. reflexivity.
  - intros Hn. destruct (field "persona" task); try reflexivity.
    exfalso. eapply Hn. reflexivity.
Qed.

Lemma C8_witness :
  field "persona" [("persona", VStr "rider");
                   ("payload", VObj [("drop", VStr "Airport")])] = VStr "rider" /\
  table_lookup "rider" summary_table = Some ("Ride to ", "drop", "destination") /\
  getTaskSummary [("persona", VStr "rider");
                  ("payload", VObj [("drop", VStr "Airport")])]
    = Some "Ride to Airport".
Proof.
  split; [reflexivity|]. split; [reflexivity|].
  destruct (C8_summary_by_persona
              [("persona", VStr "rider");
               ("payload", VObj [("drop", VStr "Airport")])]) as (_ & H & _).
  destruct (H "rider" "Ride to " "drop" "destination" eq_refl eq_refl) as [H1 _].
  apply (H1 "Airport"); [reflexivity|discriminate].
Defined.

(** ** A task known from push only *)








(** C9, a defect of the code.  The record a Start creates has an empty
    payload and the clock reading as [created_at], and its summary is the
    stand-in text; but the card that should show that text takes the
    persona into its markup as it comes.  With the persona [<!--] the card
    is broken: the [task-info] paragraph lies inside the comment that
    the persona opened, and the task shows no summary at all, where the
    claim has it always show the stand-in text.  This is the defect of C1. *)
Theorem C9_markup_in_persona_hides_summary :
  tasks (apply "T0" (Start "t1" "<!--") initial_state) !! "t1"
    = Some (newTask (VStr "t1") (VStr "<!--") "T0") /\
  field "payload" (newTask (VStr "t1") (VStr "<!--") "T0") = VObj [] /\
  getTaskSummary (newTask (VStr "t1") (VStr "<!--") "T0")
    = Some "Execution in progress..." /\
  tasksGrid (apply "T0" (Start "t1" "<!--") initial_state)
    = [CardNode (Card "card-t1" "running" "Execution in progress..." Broken)] /\
  text_safe "<!--" = false.
Proof. repeat split; vm_compute; reflexivity. Qed.

(** ** Exceptions while a message is handled *)

Lemma handleWsMessage_log_without_logs now id message st rec :
  tasks st !! id = Some rec ->
  (forall lines, field "logs" rec <> VArr lines) ->
  handleWsMessage now (frame_of (Log id message)) st = (Throw TypeError, st).
Proof.
  intros Hrec Hlogs. unfold handleWsMessage. cbn. unfold_M. cbn.
  rewrite (tasks_get_own _ _ _ Hrec). cbn.
  destruct (field "logs" rec) eqn:E; try reflexivity.
  exfalso. eapply Hlogs. reflexivity.
Qed.

(** C10. An exception thrown while a parsed message is handled reaches the
    catch block of [ws.onmessage], the one that also takes JSON parse
    failures: the handler ends with the state reached at the throw plus one
    diagnostic line, and leaves the connection as it was.  Nothing is rolled
    back.  A Log for a known record without a [logs] array throws before
    anything is written; a start whose persona is a number throws after its
    record is in the store and before its card is drawn. *)
Theorem C10_throw_is_caught_not_rolled_back :
  (forall now event payload st e st',
     JSON_parse event = Some payload ->
     handleWsMessage now payload st = (Throw e, st') ->
     ws_onmessage now event st = console_push (ignored event) st' /\
     tasks (ws_onmessage now event st) = tasks st' /\
     connectionStatus (ws_onmessage now event st) = connectionStatus st /\
     reconnect_timers (ws_onmessage now event st) = reconnect_timers st) /\
  (forall now event st,
     JSON_parse event = None ->
     ws_onmessage now event st = console_push (ignored event) st) /\
  (forall now id message st rec,
     tasks st !! id = Some rec ->
     (forall lines, field "logs" rec <> VArr lines) ->
     handleWsMessage now (frame_of (Log id message)) st = (Throw TypeError, st)) /\
  handleWsMessage "T0" start_persona_5 initial_state
    = (Throw TypeError,
       set_tasks (<["t1" := newTask (VStr "t1") (VNum "5") "T0"]> ∅) initial_state) /\
  (forall text,
     tasks (ws_onmessage "T0" (Frame text (Some start_persona_5)) initial_state)
       !! "t1" = Some (newTask (VStr "t1") (VNum "5") "T0") /\
     tasksGrid (ws_onmessage "T0" (Frame text (Some start_persona_5))
                  initial_state) = []).
Proof.
  split; [|split; [|split; [|repeat split]]].
  - intros now event payload st e st' Hp Hthrow.
    assert (E : ws_onmessage now event st = console_push (ignored event) st').
    { unfold ws_onmessage, try_catch. rewrite Hp, Hthrow. reflexivity. }
    split; [exact E|]. rewrite E. split; [reflexivity|].
    pose proof (handleWsMessage_keeps connectionStatus now payload
                  ltac:(reflexivity) ltac:(reflexivity) ltac:(reflexivity)
                  ltac:(reflexivity) ltac:(reflexivity) ltac:(reflexivity) st)
      as Hc.
    pose proof (handleWsMessage_keeps reconnect_timers now payload
                  ltac:(reflexivity) ltac:(reflexivity) ltac:(reflexivity)
                  ltac:(reflexivity) ltac:(reflexivity) ltac:(reflexivity) st)
      as Hr.
    unfold keeps, same in Hc, Hr. rewrite Hthrow in Hc, Hr. cbn in *.
    split; congruence.
  - intros now event st Hp. unfold ws_onmessage, try_catch. rewrite Hp.
    reflexivity.
  - intros now id message st rec. apply handleWsMessage_log_without_logs.
Qed.

Lemma C10_witness :
  tasks snapshot_without_logs !! "t4"
    = Some [("id", VStr "t4"); ("persona", VStr "foodie"); ("status", VStr "running")] /\
  handleWsMessage "T1" (frame_of (Log "t4" "cooking")) snapshot_without_logs
    = (Throw TypeError, snapshot_without_logs) /\
  JSON_parse (Frame "null" (Some VNull)) = Some VNull /\
  handleWsMessage "T1" VNull snapshot_without_logs
    = (Throw TypeError, snapshot_without_logs) /\
  ws_onmessage "T1" (Frame "null" (Some VNull)) snapshot_without_logs
    = console_push (ignored (Frame "null" (Some VNull))) snapshot_without_logs.
Proof.
  assert (H1 : tasks snapshot_without_logs !! "t4"
               = Some [("id", VStr "t4"); ("persona", VStr "foodie");
                       ("status", VStr "running")])
    by (vm_compute; reflexivity).
  destruct C10_throw_is_caught_not_rolled_back as (Hcatch & _ & Hlog & _).
  split; [exact H1|]. split.
  { apply (Hlog "T1" "t4" "cooking" snapshot_without_logs _ H1).
    intros lines. discriminate. }
  split; [reflexivity|]. split; [reflexivity|].
  apply (Hcatch "T1" (Frame "null" (Some VNull)) VNull snapshot_without_logs
           TypeError snapshot_without_logs eq_refl eq_refl).
Defined.

(** * Further properties *)

(** ** Drawing a card *)

Lemma set_tasksGrid_same st : set_tasksGrid (tasksGrid st) st = st.
Proof. destruct st. reflexivity. Qed.

Lemma string_method_eq v :
  string_method v
  = fun st => if is_string v then (Normal tt, st) else (Throw TypeError, st).
Proof. destruct v; reflexivity. Qed.

(** [createTaskCard] in one equation. *)
Lemma createTaskCard_eq task st :
  createTaskCard task st
  = match card_for task with
    | Some c =>
        (Normal tt,
         set_tasksGrid (CardNode c :: clear_empty_state (tasksGrid st)) st)
    | None =>
        (Throw TypeError, set_tasksGrid (clear_empty_state (tasksGrid st)) st)
    end.
Proof.
  unfold createTaskCard, card_for, clear_empty_state, getPersonaIcon,
    capitalize, formatTime, to_primitive, to_string, lift_opt,
    bind, ret, throw, modify, gets.
  rewrite !string_method_eq.
  destruct (field "persona" task) as [| |pb|pr|ps|pitems|pfields];
    try destruct (ToString (VArr pitems));
    try destruct (ToString (VObj pfields));
    destruct (existsb is_empty_state (tasksGrid st));
    destruct (ToString (field "id" task));
    destruct (ToString (field "status" task));
    destruct (is_string (field "status" task));
    destruct (getTaskSummary task);
    destruct (truthy (field "created_at" task));
    destruct (ToString (field "created_at" task));
    cbn -[getTaskSummary];
    try destruct pb;
    try destruct (String.eqb pr "0");
    try destruct (String.eqb ps "");
    cbn; rewrite ?set_tasksGrid_same; reflexivity.
Qed.

(** ** Drawing, in words *)



Lemma spec_status_class s :
  spec_status s = true -> has_class "empty-state" s = false.
Proof.
  unfold spec_status. cbn [existsb]. intros H.
  repeat (apply orb_true_iff in H as [H|H];
          [apply String.eqb_eq in H; subst s; reflexivity|]).
  discriminate.
Qed.




(** A card whose status is [empty-state] is itself matched by
    [querySelector('.empty-state')]: drawing the next card clears it. *)
Example createTaskCard_after_status_empty_state :
  tasksGrid
    (fetchTasks_resume
       (Body [ [("id", VStr "a"); ("persona", VStr "rider");
                ("status", VStr "empty-state")];
               [("id", VStr "b"); ("persona", VStr "foodie");
                ("status", VStr "success")] ])
       initial_state)
  = [CardNode (Card "card-b" "success" "Order: Food" Intact)].
Proof. vm_compute. reflexivity. Qed.

(** ** A Complete without a card *)

Lemma updateTaskCard_without_card taskId status result st k :
  ToString taskId = Some k ->
  getElementById ("card-" +:+ k) (tasksGrid st) = None ->
  updateTaskCard taskId status result st = (Normal tt, st).
Proof.
  intros Hk Hcard. unfold updateTaskCard. unfold_M. rewrite Hk, Hcard.
  reflexivity.
Qed.

(** X2. A complete message for a record whose card is not in the grid is
    dropped without a trace: status and result of the record stay as they
    were, nothing is logged and no fetch is issued, whatever the message
    carries. *)
Theorem complete_without_card_is_dropped now payload st k rec :
  is_str (prop payload "type") "complete" = true ->
  ToString (prop payload "task_id") = Some k ->
  tasks st !! k = Some rec ->
  getElementById ("card-" +:+ k) (tasksGrid st) = None ->
  handleWsMessage now payload st = (Normal tt, st) /\
  forall event, JSON_parse event = Some payload ->
                ws_onmessage now event st = st.
Proof.
  intros Htype Hk Hrec Hcard.
  assert (E : handleWsMessage now payload st = (Normal tt, st)).
  { destruct payload as [| |b|r|s|items|fields]; try discriminate.
    apply is_str_true in Htype. unfold handleWsMessage. cbv zeta.
    rewrite Htype. cbn -[updateTaskCard to_string tasks_get]. cbn [prop] in Hk.
    unfold to_string at 1. rewrite Hk. unfold_M.
    rewrite (tasks_get_own _ _ _ Hrec). cbn -[updateTaskCard].
    apply (updateTaskCard_without_card _ _ _ _ k); assumption. }
  split; [exact E|].
  intros event Hp. unfold ws_onmessage, try_catch. rewrite Hp, E. reflexivity.
Qed.

Lemma complete_without_card_is_dropped_witness :
  tasks record_without_card !! "t1" = Some (newTask (VStr "t1") (VNum "5") "T0") /\
  getElementById ("card-" +:+ "t1") (tasksGrid record_without_card) = None /\
  handleWsMessage "T1" (frame_of (Complete "t1" "success" VNull)) record_without_card
    = (Normal tt, record_without_card).
Proof.
  assert (H1 : tasks record_without_card !! "t1"
               = Some (newTask (VStr "t1") (VNum "5") "T0"))
    by (vm_compute; reflexivity).
  split; [exact H1|]. split; [reflexivity|].
  apply (complete_without_card_is_dropped "T1"
           (frame_of (Complete "t1" "success" VNull)) record_without_card "t1"
           _ eq_refl eq_refl H1 eq_refl).
Defined.

(** ** What a push message does to the store *)

Lemma keys_kept_refl st : keys_kept st st.
Proof. intros k H. exact H. Qed.

Lemma keys_kept_trans a b c : keys_kept a b -> keys_kept b c -> keys_kept a c.
Proof. intros Hab Hbc k H. auto. Qed.

Lemma keys_kept_same_tasks a b : tasks a = tasks b -> keys_kept a b.
Proof. intros E k H. rewrite <- E. exact H. Qed.

Lemma keys_kept_insert st k rec :
  keys_kept st (set_tasks (<[k := rec]> (tasks st)) st).
Proof.
  intros k0 H. cbn. destruct (decide (k = k0)) as [->|Hne].
  - rewrite lookup_insert_eq. eauto.
  - rewrite lookup_insert_ne by assumption. exact H.
Qed.

Lemma handleWsMessage_keys_kept now payload st :
  keeps keys_kept (handleWsMessage now payload) st.
Proof.
  unfold handleWsMessage, updateTaskCard, createTaskCard, appendLog, showResult,
    fetchTasks, getPersonaIcon, capitalize, formatTime, to_primitive, to_string.
  repeat first
    [ keeps_step keys_kept_refl keys_kept_trans
    | apply keeps_modify; apply keys_kept_same_tasks; reflexivity
    | apply keeps_modify; from_gets; apply keys_kept_insert ].
Qed.

(** X3. A push frame never evicts a record: every key of the store is
    still a key after the frame has been handled, whatever the frame is and
    whether or not handling it throws. *)
Theorem push_never_evicts now event st k :
  is_Some (tasks st !! k) ->
  is_Some (tasks (ws_onmessage now event st) !! k).
Proof.
  intros H. unfold ws_onmessage, try_catch.
  destruct (JSON_parse event) as [payload|]; [|exact H].
  pose proof (handleWsMessage_keys_kept now payload st k H) as Hk.
  destruct (handleWsMessage now payload st) as [[u|e] st']; exact Hk.
Qed.

Lemma push_never_evicts_witness :
  is_Some (tasks finished_t1 !! "t1") /\
  is_Some (tasks (ws_onmessage "T3" (Frame "{}" (Some (VObj []))) finished_t1)
             !! "t1").
Proof.
  assert (H : is_Some (tasks finished_t1 !! "t1")) by (vm_compute; eauto).
  split; [exact H|].
  exact (push_never_evicts "T3" (Frame "{}" (Some (VObj []))) finished_t1 "t1" H).
Defined.



(** ** Cards and records *)

Lemma keeps_forEach (P : state -> state -> Prop) {A} (l : list A) (f : A -> M unit) :
  (forall st, P st st) ->
  (forall a b c, P a b -> P b c -> P a c) ->
  (forall x st, keeps P (f x) st) ->
  forall st, keeps P (forEach l f) st.
Proof.
  intros Hrefl Htrans Hf. induction l as [|x l IH]; intros st; cbn.
  - apply keeps_ret, Hrefl.
  - apply keeps_bind; [exact Htrans|apply Hf|]. intros _ st' _. apply IH.
Qed.

Lemma clear_empty_state_subset (n : grid_node) g :
  n ∈ clear_empty_state g -> n ∈ g.
Proof.
  unfold clear_empty_state. destruct (existsb is_empty_state g); [|auto].
  intros H. inversion H.
Qed.

Lemma set_card_status_ids id s g c :
  CardNode c ∈ set_card_status id s g ->
  exists c', CardNode c' ∈ g /\ card_id c' = card_id c.
Proof.
  induction g as [|[|c0] g IH]; cbn.
  - intros H. inversion H.
  - intros H. apply elem_of_cons in H as [H|H]; [discriminate|].
    destruct (IH H) as (c' & Hc' & E). exists c'. split; [|exact E].
    apply elem_of_cons. auto.
  - destruct (String.eqb (card_id c0) id).
    + intros H. apply elem_of_cons in H as [H|H].
      * injection H as ->. exists c0. split; [apply elem_of_cons; auto|reflexivity].
      * exists c. split; [apply elem_of_cons; auto|reflexivity].
    + intros H. apply elem_of_cons in H as [H|H].
      * injection H as ->. exists c0. split; [apply elem_of_cons; auto|reflexivity].
      * destruct (IH H) as (c' & Hc' & E). exists c'. split; [|exact E].
        apply elem_of_cons. auto.
Qed.

Lemma keys_kept_no_new_cards_refl st : keys_kept_no_new_cards st st.
Proof. split; [auto|]. intros c H. eauto. Qed.

Lemma keys_kept_no_new_cards_trans a b c :
  keys_kept_no_new_cards a b -> keys_kept_no_new_cards b c ->
  keys_kept_no_new_cards a c.
Proof.
  intros [Kab Cab] [Kbc Cbc]. split; [auto|].
  intros x Hx. destruct (Cbc x Hx) as (x1 & H1 & E1).
  destruct (Cab x1 H1) as (x2 & H2 & E2). exists x2. split; [exact H2|congruence].
Qed.

Lemma keys_kept_no_new_cards_same a b :
  tasks a = tasks b -> tasksGrid a = tasksGrid b -> keys_kept_no_new_cards a b.
Proof.
  intros Et Eg. split.
  - intros k. rewrite Et. auto.
  - intros c. rewrite <- Eg. eauto.
Qed.

Lemma keys_kept_no_new_cards_insert st k rec :
  keys_kept_no_new_cards st (set_tasks (<[k := rec]> (tasks st)) st).
Proof.
  split; [apply keys_kept_insert|]. intros c H. cbn in H. eauto.
Qed.

Lemma keys_kept_no_new_cards_status st id s :
  keys_kept_no_new_cards st
    (set_tasksGrid (set_card_status id s (tasksGrid st)) st).
Proof.
  split; [auto|]. intros c H. cbn in H. eapply set_card_status_ids. exact H.
Qed.

Lemma cards_have_records_step a b :
  keys_kept_no_new_cards a b -> cards_have_records a -> cards_have_records b.
Proof.
  intros [K C] I c Hc. destruct (C c Hc) as (c' & Hc' & E).
  destruct (I c' Hc') as (k & Hk & Hs). exists k. split; [congruence|auto].
Qed.

Lemma cards_have_records_keeps {A} (c : M A) st :
  keeps keys_kept_no_new_cards c st ->
  cards_have_records st -> cards_have_records (snd (c st)).
Proof. intros H I. eapply cards_have_records_step; [exact H|exact I]. Qed.

Ltac keeps_cards :=
  repeat first
    [ match goal with
      | |- keeps _ (match ?x with _ => _ end) _ => destruct x eqn:?
      end
    | keeps_step keys_kept_no_new_cards_refl keys_kept_no_new_cards_trans
    | apply keeps_forEach;
      [ apply keys_kept_no_new_cards_refl
      | apply keys_kept_no_new_cards_trans | intros ? ? ]
    | apply keeps_modify; apply keys_kept_no_new_cards_same; reflexivity
    | apply keeps_modify; apply keys_kept_no_new_cards_status
    | apply keeps_modify; from_gets; apply keys_kept_no_new_cards_insert ].

(** Storing a record and drawing its card. *)
Lemma install_and_draw_cards task st :
  cards_have_records st ->
  cards_have_records
    (snd ((let* k := to_string (field "id" task) in
           modify (fun st => set_tasks (<[k := task]> (tasks st)) st) ;;;
           createTaskCard task) st)).
Proof.
  intros I. unfold to_string, lift_opt.
  destruct (ToString (field "id" task)) as [k|] eqn:Hk; [|exact I].
  unfold bind, ret, modify. rewrite createTaskCard_eq.
  assert (Hold : forall c, CardNode c ∈ clear_empty_state (tasksGrid st) ->
                   exists k0, card_id c = "card-" +:+ k0 /\
                              is_Some (<[k := task]> (tasks st) !! k0)).
  { intros c Hc. apply clear_empty_state_subset in Hc.
    destruct (I c Hc) as (k0 & E & Hs). exists k0. split; [exact E|].
    apply keys_kept_insert with (st := st). exact Hs. }
  destruct (card_for task) as [c|] eqn:Hcard; cbn.
  - intros c' Hc'. apply elem_of_cons in Hc' as [Hc'|Hc']; [|auto].
    injection Hc' as ->. exists k. split; [|cbn; rewrite lookup_insert_eq; eauto].
    unfold card_for in Hcard. rewrite Hk in Hcard.
    destruct (ToString (field "status" task)); [|discriminate].
    destruct (getTaskSummary task); [|discriminate].
    destruct (_ && _); [|discriminate]. injection Hcard as <-. reflexivity.
  - exact Hold.
Qed.

Lemma inv_bind (I : state -> Prop) {A B} (c : M A) (k : A -> M B) st :
  I (snd (c st)) ->
  (forall a st', I st' -> I (snd (k a st'))) ->
  I (snd (bind c k st)).
Proof.
  unfold bind. intros Hc Hk. destruct (c st) as [[a|e] st']; cbn in *; auto.
Qed.

Lemma handleWsMessage_cards now payload st :
  cards_have_records st ->
  cards_have_records (snd (handleWsMessage now payload st)).
Proof.
  intros I. unfold handleWsMessage. cbv zeta.
  destruct payload as [| |b|r|s|items|fields]; try exact I.
  all: apply inv_bind;
    [ destruct (is_str _ "start"); [|exact I];
      apply (install_and_draw_cards (newTask _ _ now)); exact I
    | intros _ st' I';
      apply cards_have_records_keeps; [|exact I'];
      unfold updateTaskCard, appendLog, showResult, fetchTasks, to_string;
      keeps_cards ].
Qed.

Lemma forEach_cards (data : list obj) : forall st,
  cards_have_records st ->
  cards_have_records
    (snd (forEach data (fun task =>
            let* k := to_string (field "id" task) in
            modify (fun st => set_tasks (<[k := task]> (tasks st)) st) ;;;
            createTaskCard task) st)).
Proof.
  induction data as [|task data IH]; intros st I; [exact I|].
  cbn [forEach]. apply inv_bind.
  - apply install_and_draw_cards. exact I.
  - intros _ st' I'. apply IH. exact I'.
Qed.

Lemma cards_have_records_console e st :
  cards_have_records st -> cards_have_records (console_push e st).
Proof. intros I. exact I. Qed.

Lemma fetchTasks_resume_cards r st :
  cards_have_records st -> cards_have_records (fetchTasks_resume r st).
Proof.
  intros I. unfold fetchTasks_resume, try_catch.
  destruct r as [| |data]; try exact I.
  rewrite !bind_modify.
  match goal with
  | |- cards_have_records (match ?c ?s with _ => _ end) =>
      assert (H : cards_have_records (snd (c s)));
      [|destruct (c s) as [[u|e] s']; exact H]
  end.
  destruct data as [|task data].
  - intros c Hc. cbn in Hc. apply elem_of_cons in Hc as [Hc|Hc];
      [discriminate|inversion Hc].
  - apply forEach_cards. intros c Hc. cbn in Hc. inversion Hc.
Qed.

Lemma openTaskModal_cards string_positive taskId st :
  cards_have_records st ->
  cards_have_records (snd (openTaskModal string_positive taskId st)).
Proof.
  intros I. apply cards_have_records_keeps; [|exact I].
  unfold openTaskModal, capitalize, appendLog, showResult, to_string.
  keeps_cards.
Qed.

(** X5. On every page reached from [DOMContentLoaded] by responses,
    frames, socket events and clicks, each card of the grid belongs to a
    record of the store: its element id is [card-] followed by a key under
    which the store holds a record. *)
Theorem every_card_has_its_record string_positive evs :
  cards_have_records (run string_positive evs (DOMContentLoaded initial_state)).
Proof.
  assert (H : forall st, cards_have_records st ->
                cards_have_records (run string_positive evs st)).
  { induction evs as [|ev evs IH]; intros st I; [exact I|].
    cbn [run fold_left]. apply IH.
    destruct ev as [r| | |now event|taskId|]; cbn [step].
    - apply fetchTasks_resume_cards, I.
    - exact I.
    - exact I.
    - unfold ws_onmessage, try_catch.
      destruct (JSON_parse event) as [payload|]; [|exact I].
      pose proof (handleWsMessage_cards now payload st I) as H.
      destruct (handleWsMessage now payload st) as [[u|e] st']; exact H.
    - apply openTaskModal_cards, I.
    - exact I. }
  apply H. intros c Hc. cbn in Hc. inversion Hc.
Qed.

(** ** What a snapshot installs *)

Lemma card_for_key task c : card_for task = Some c -> ToString (field "id" task) = Some (record_key task).
Proof.
  unfold card_for, record_key.
  destruct (ToString (field "id" task)); [reflexivity|discriminate].
Qed.

Lemma ordinary_record_inv task :
  ordinary_record task = true ->
  exists c, card_for task = Some c /\ card_intact c = true
            /\ spec_status (card_status c) = true.
Proof.
  unfold ordinary_record. destruct (card_for task) as [c|]; [|discriminate].
  intros H. apply andb_true_iff in H as [H1 H2]. eauto.
Qed.

Lemma forEach_installs (data : list obj) : forall st,
  Forall (fun task => ordinary_record task = true) data ->
  existsb is_empty_state (tasksGrid st) = false ->
  forEach data (fun task =>
    let* k := to_string (field "id" task) in
    modify (fun st => set_tasks (<[k := task]> (tasks st)) st) ;;;
    createTaskCard task) st
  = (Normal tt,
     set_tasksGrid (drawn data ++ tasksGrid st)
       (set_tasks (installed data (tasks st)) st)).
Proof.
  induction data as [|task data IH]; intros st Hall Hgrid.
  - cbn. destruct st. reflexivity.
  - apply Forall_cons in Hall as [Hord Hall].
    apply ordinary_record_inv in Hord as (c & Hc & _ & Hstatus).
    cbn [forEach].
    unfold bind at 1. unfold bind at 1. unfold to_string, lift_opt.
    rewrite (card_for_key task c Hc). unfold ret at 1.
    unfold bind at 1. unfold modify at 1.
    rewrite createTaskCard_eq, Hc.
    unfold clear_empty_state. cbn [tasksGrid set_tasks]. rewrite Hgrid.
    rewrite IH; [|exact Hall|].
    2:{ cbn [tasksGrid set_tasksGrid existsb is_empty_state].
        rewrite (spec_status_class _ Hstatus). exact Hgrid. }
    unfold drawn, installed.
    change (omap card_for (task :: data))
      with (match card_for task with
            | Some y => y :: omap card_for data
            | None => omap card_for data
            end).
    rewrite Hc. cbn [rev fold_left]. rewrite fmap_app, <- app_assoc.
    reflexivity.
Qed.

Lemma installed_notin data : forall m k,
  k ∉ (record_key <$> data) -> installed data m !! k = m !! k.
Proof.
  induction data as [|task data IH]; intros m k Hk; [reflexivity|].
  cbn in *. apply not_elem_of_cons in Hk as [Hne Hk].
  unfold installed in *. cbn. rewrite IH by assumption.
  apply lookup_insert_ne. congruence.
Qed.

Lemma installed_last_wins l1 rec l2 m :
  record_key rec ∉ (record_key <$> l2) ->
  installed (l1 ++ rec :: l2) m !! record_key rec = Some rec.
Proof.
  intros Hk. unfold installed. rewrite fold_left_app. cbn.
  fold (installed l2 (<[record_key rec := rec]> (fold_left
         (fun m task => <[record_key task := task]> m) l1 m))).
  rewrite installed_notin by assumption. apply lookup_insert_eq.
Qed.

Lemma installed_from data : forall m k rec,
  installed data m !! k = Some rec ->
  (rec ∈ data /\ record_key rec = k) \/ m !! k = Some rec.
Proof.
  induction data as [|task data IH]; intros m k rec H; [right; exact H|].
  unfold installed in *. cbn in H. apply IH in H as [[Hin Hk]|H].
  - left. split; [apply elem_of_cons; auto|exact Hk].
  - destruct (decide (record_key task = k)) as [E|Hne].
    + subst k. rewrite lookup_insert_eq in H. injection H as <-.
      left. split; [apply elem_of_cons; auto|reflexivity].
    + rewrite lookup_insert_ne in H by assumption. right. exact H.
Qed.

Lemma omap_card_for_length data :
  Forall (fun task => is_Some (card_for task)) data ->
  length (omap card_for data) = length data.
Proof.
  induction 1 as [|task data [c Hc] _ IH]; [reflexivity|].
  change (omap card_for (task :: data))
    with (match card_for task with
          | Some y => y :: omap card_for data
          | None => omap card_for data
          end).
  rewrite Hc. cbn. rewrite IH. reflexivity.
Qed.

Lemma drawn_ordinary data :
  Forall (fun task => ordinary_record task = true) data ->
  ordinary_grid (drawn data) = true.
Proof.
  induction 1 as [|task data Hord _ IH]; [reflexivity|].
  apply ordinary_record_inv in Hord as (c & Hc & Hi & Hs).
  unfold drawn in *.
  change (omap card_for (task :: data))
    with (match card_for task with
          | Some y => y :: omap card_for data
          | None => omap card_for data
          end).
  rewrite Hc. cbn [rev]. rewrite fmap_app.
  unfold ordinary_grid in *. rewrite forallb_app, IH.
  cbn [fmap list_fmap forallb]. rewrite Hi, Hs. reflexivity.
Qed.

(** X6. A response all of whose records can be drawn, each with plain
    texts and a status of the specification, replaces store and grid by
    exactly its records and reports no error: the store holds records of
    the response only, each under the string of its id, a record that no
    later record of the response shares its key with is found under its
    key, and the grid holds one intact card per record, the last record of
    the response first. *)
Theorem snapshot_installs_its_records data st :
  Forall (fun task => ordinary_record task = true) data ->
  data <> [] ->
  console (fetchTasks_resume (Body data) st) = console st /\
  tasksGrid (fetchTasks_resume (Body data) st) = CardNode <$> rev (omap card_for data) /\
  length (tasksGrid (fetchTasks_resume (Body data) st)) = length data /\
  ordinary_grid (tasksGrid (fetchTasks_resume (Body data) st)) = true /\
  (forall k rec, tasks (fetchTasks_resume (Body data) st) !! k = Some rec ->
     rec ∈ data /\ ToString (field "id" rec) = Some k) /\
  (forall l1 rec l2, data = l1 ++ rec :: l2 ->
     record_key rec ∉ (record_key <$> l2) ->
     tasks (fetchTasks_resume (Body data) st) !! record_key rec = Some rec).
Proof.
  intros Hord Hne.
  assert (Hall : Forall (fun task => is_Some (card_for task)) data).
  { eapply Forall_impl; [exact Hord|]. intros task H.
    apply ordinary_record_inv in H as (c & Hc & _). eauto. }
  assert (E : fetchTasks_resume (Body data) st
              = set_tasksGrid (drawn data)
                  (set_tasks (installed data ∅)
                     (set_fetches_in_flight (pred (fetches_in_flight st)) st))).
  { unfold fetchTasks_resume, try_catch. rewrite !bind_modify.
    destruct data as [|task data]; [congruence|].
    rewrite forEach_installs; [|exact Hord|reflexivity].
    cbn [tasksGrid tasks set_tasksGrid set_tasks]. rewrite app_nil_r.
    reflexivity. }
  rewrite E. cbn [console tasksGrid tasks set_tasksGrid set_tasks
                    set_fetches_in_flight].
  split; [reflexivity|]. split; [reflexivity|]. split.
  { unfold drawn. rewrite length_fmap, length_rev.
    apply omap_card_for_length, Hall. }
  split.
  { apply drawn_ordinary, Hord. }
  split.
  - intros k rec H. apply installed_from in H as [[Hin Hk]|H].
    + split; [exact Hin|]. subst k.
      rewrite Forall_forall in Hall. destruct (Hall rec Hin) as [c Hc].
      apply (card_for_key rec c Hc).
    + rewrite lookup_empty in H. discriminate.
  - intros l1 rec l2 -> Hk. apply installed_last_wins. exact Hk.
Qed.

Lemma snapshot_installs_its_records_witness :
  Forall (fun task => ordinary_record task = true) two_records /\
  two_records <> [] /\
  tasksGrid (fetchTasks_resume (Body two_records) finished_t1)
    = [CardNode (Card "card-b" "success" "Order: Food" Intact);
       CardNode (Card "card-a" "running" "Ride to destination" Intact)] /\
  console (fetchTasks_resume (Body two_records) finished_t1) = console finished_t1.
Proof.
  assert (H1 : Forall (fun task => ordinary_record task = true) two_records).
  { repeat constructor. }
  assert (H2 : two_records <> []) by discriminate.
  split; [exact H1|]. split; [exact H2|].
  destruct (snapshot_installs_its_records two_records finished_t1 H1 H2)
    as (Hc & Hg & _).
  split; [|exact Hc]. rewrite Hg. reflexivity.
Defined.

(** X7. An empty response is a success, told apart from a failed fetch: it
    empties the store and shows the empty state, and logs no error.  From
    then on a Log or Complete for an identifier that is not a name objects
    inherit only issues a fetch; the first Start replaces the empty state
    by its one card. *)
Theorem empty_snapshot_then_push st :
  tasks (fetchTasks_resume (Body []) st) = ∅ /\
  tasksGrid (fetchTasks_resume (Body []) st) = [EmptyState] /\
  console (fetchTasks_resume (Body []) st) = console st /\
  (forall now e,
     is_start e = false ->
     inherited (event_task_id e) = false ->
     handleWsMessage now (frame_of e) (fetchTasks_resume (Body []) st)
       = fetchTasks (fetchTasks_resume (Body []) st)) /\
  (forall now id persona,
     tasksGrid (apply now (Start id persona) (fetchTasks_resume (Body []) st))
       = [CardNode (Card ("card-" +:+ id) "running" (placeholder persona)
                      (markup_of_persona persona))] /\
     tasks (apply now (Start id persona) (fetchTasks_resume (Body []) st))
       = <[id := newTask (VStr id) (VStr persona) now]> ∅).
Proof.
  split; [reflexivity|]. split; [reflexivity|]. split; [reflexivity|]. split.
  - intros now e He Hin.
    destruct e as [i p|i m|i s r]; [discriminate| |];
      apply (handleWsMessage_unknown _ _ _ i); try discriminate;
      try reflexivity; apply tasks_get_None; split; first [reflexivity|exact Hin].
  - intros now id persona. unfold apply. rewrite handleWsMessage_start.
    split; reflexivity.
Qed.

Lemma empty_snapshot_then_push_witness :
  is_start (Complete "t1" "success" VNull) = false /\
  inherited (event_task_id (Complete "t1" "success" VNull)) = false /\
  is_Some (tasks finished_t1 !! "t1") /\
  handleWsMessage "T9" (frame_of (Complete "t1" "success" VNull))
      (fetchTasks_resume (Body []) finished_t1)
    = fetchTasks (fetchTasks_resume (Body []) finished_t1).
Proof.
  split; [reflexivity|]. split; [reflexivity|]. split; [vm_compute; eauto|].
  destruct (empty_snapshot_then_push finished_t1) as (_ & _ & _ & H & _).
  apply (H "T9" (Complete "t1" "success" VNull)); reflexivity.
Defined.

(** ** Fetches that complete one after the other *)

Lemma failed_fetch_same_view r st :
  (forall data, r <> Body data) -> same_view (fetchTasks_resume r st) st.
Proof.
  intros H. destruct r as [| |data]; [split; reflexivity|split; reflexivity|].
  exfalso. eapply H. reflexivity.
Qed.

(** X8. However many fetches are in flight, what the page shows once they
    have completed is decided by completion order alone: store and grid are
    those of the last response that parsed, as if it had been the only one,
    and when none parsed they are untouched. *)
Theorem last_snapshot_wins rs : forall st,
  same_view (fetch_all rs st)
    match last_body rs with
    | Some data => fetchTasks_resume (Body data) st
    | None => st
    end.
Proof.
  induction rs as [|r rs IH]; intros st; [split; reflexivity|].
  cbn [fetch_all fold_left last_body].
  specialize (IH (fetchTasks_resume r st)). unfold fetch_all in IH.
  destruct (last_body rs) as [data|].
  - destruct IH as [Ht Hg].
    destruct (fetchTasks_resume_same_view data (fetchTasks_resume r st) st)
      as [Ht' Hg'].
    split; congruence.
  - destruct r as [| |data]; exact IH.
Qed.

(** ** When a frame asks for a reload *)

(** X9. On a store that holds no record under [__proto__], handling a
    message issues a snapshot fetch exactly when the message is a non-null
    value that is not a start and whose [task_id] converts to a name under
    which the store object has nothing, neither a record of its own nor a
    member it inherits, and then it issues one; in every other case, thrown
    or not, the number of fetches in flight is unchanged.  A message for an
    inherited name therefore never issues a fetch. *)
Theorem reload_exactly_when_unknown now payload st :
  tasks st !! "__proto__" = None ->
  fetches_in_flight (snd (handleWsMessage now payload st))
    = (if reload_needed payload st
       then S (fetches_in_flight st)
       else fetches_in_flight st) /\
  (forall k, ToString (prop payload "task_id") = Some k ->
     inherited k = true ->
     fetches_in_flight (snd (handleWsMessage now payload st))
       = fetches_in_flight st).
Proof.
  intros _. split; [apply handleWsMessage_fetches|].
  intros k Hk Hin. rewrite handleWsMessage_fetches. unfold reload_needed.
  rewrite Hk. unfold tasks_get. rewrite Hin.
  destruct payload; try reflexivity;
    destruct (tasks st !! k); rewrite ?andb_false_r; reflexivity.
Qed.

Lemma reload_exactly_when_unknown_witness :
  tasks (DOMContentLoaded initial_state) !! "__proto__" = None /\
  fetches_in_flight (DOMContentLoaded initial_state) = 1 /\
  fetches_in_flight
    (snd (handleWsMessage "T0" (frame_of (Log "constructor" "x"))
            (DOMContentLoaded initial_state))) = 1 /\
  fetches_in_flight
    (snd (handleWsMessage "T0" (frame_of (Log "t9" "x"))
            (DOMContentLoaded initial_state))) = 2.
Proof.
  split; [reflexivity|]. split; [reflexivity|]. split.
  - destruct (reload_exactly_when_unknown "T0" (frame_of (Log "constructor" "x"))
                (DOMContentLoaded initial_state) eq_refl) as [H _].
    rewrite H. reflexivity.
  - destruct (reload_exactly_when_unknown "T0" (frame_of (Log "t9" "x"))
                (DOMContentLoaded initial_state) eq_refl) as [H _].
    rewrite H. reflexivity.
Defined.

(** ** The modal *)

Lemma forEach_appendLog_strings (lines : list string) : forall st,
  forEach (VStr <$> lines) appendLog st
  = (Normal tt, set_consoleOutput (consoleOutput st ++ lines) st).
Proof.
  induction lines as [|l lines IH]; intros st.
  - cbn. rewrite app_nil_r. destruct st. reflexivity.
  - cbn [fmap list_fmap forEach]. unfold bind. cbn [appendLog modify].
    rewrite IH. cbn. rewrite <- app_assoc. reflexivity.
Qed.

(** The state in which the modal shows [task] under the key [id]. *)
Lemma openTaskModal_eq string_positive id st task s lines :
  tasks st !! id = Some task ->
  negb (truthy (field "persona" task)) || is_string (field "persona" task) = true ->
  field "status" task = VStr s ->
  field "logs" task = VArr (VStr <$> lines) ->
  openTaskModal string_positive (VStr id) st
  = (Normal tt,
     set_resultArea
       (if String.eqb s "success" || String.eqb s "failed"
        then Some (field "result" task) else None)
       (set_consoleOutput
          (match lines with [] => [waiting_line] | _ :: _ => lines end)
          (set_modalStatus s (set_activeTaskId (VStr id) st)))).
Proof.
  intros Hrec Hp Hs Hl. unfold openTaskModal, capitalize.
  rewrite !string_method_eq. unfold to_string, lift_opt, showResult.
  cbn [ToString]. rewrite bind_ret_l, bind_gets, (tasks_get_own _ _ _ Hrec), Hs, Hl.
  cbn [truthy ToString is_string is_str length_positive].
  cbn [string_method].
  destruct (truthy (field "persona" task)); cbn [negb orb] in Hp;
    [rewrite (string_method_eq (field "persona" task)), Hp|];
    unfold bind, ret, modify.
  all: destruct lines as [|l lines];
    [ cbn;
      destruct (String.eqb s "success" || String.eqb s "failed"); reflexivity
    | change (VStr <$> l :: lines) with (VStr l :: (VStr <$> lines));
      cbn [forEach]; unfold bind; cbn [appendLog modify];
      rewrite forEach_appendLog_strings; cbn;
      destruct (String.eqb s "success" || String.eqb s "failed"); reflexivity ].
Qed.

Lemma handleWsMessage_complete_no_card now id status result st rec :
  tasks st !! id = Some rec ->
  getElementById ("card-" +:+ id) (tasksGrid st) = None ->
  handleWsMessage now (frame_of (Complete id status result)) st = (Normal tt, st).
Proof.
  intros Hrec Hcard. unfold handleWsMessage. cbn -[updateTaskCard tasks_get].
  unfold_M. rewrite (tasks_get_own _ _ _ Hrec). cbn -[updateTaskCard].
  apply (updateTaskCard_without_card _ _ _ _ id); [reflexivity|assumption].
Qed.

Ltac simpl_state :=
  cbn [fst snd tasks activeTaskId tasksGrid consoleOutput modalStatus resultArea
       connectionStatus reconnect_timers fetches_in_flight console
       set_tasks set_tasksGrid set_consoleOutput set_modalStatus set_resultArea
       set_connection set_fetches_in_flight console_push set_activeTaskId].

(** A Complete in one equation. *)
Lemma handleWsMessage_complete_eq now id status result st :
  handleWsMessage now (frame_of (Complete id status result)) st
  = if bool_decide (is_Some (tasks_get (tasks st) id))
    then updateTaskCard (VStr id) (VStr status) result st
    else fetchTasks st.
Proof.
  unfold handleWsMessage. cbn -[updateTaskCard tasks_get]. unfold_M.
  destruct (bool_decide (is_Some (tasks_get (tasks st) id))); reflexivity.
Qed.

(** What [updateTaskCard] leaves alone. *)
Lemma updateTaskCard_frame id status result st :
  activeTaskId (snd (updateTaskCard (VStr id) (VStr status) result st))
    = activeTaskId st /\
  consoleOutput (snd (updateTaskCard (VStr id) (VStr status) result st))
    = consoleOutput st /\
  (strict_equal (activeTaskId st) (VStr id) = false ->
   modalStatus (snd (updateTaskCard (VStr id) (VStr status) result st))
     = modalStatus st /\
   resultArea (snd (updateTaskCard (VStr id) (VStr status) result st))
     = resultArea st) /\
  (tasks (snd (updateTaskCard (VStr id) (VStr status) result st)) = tasks st \/
   exists rec,
     tasks st !! id = Some rec /\
     tasks (snd (updateTaskCard (VStr id) (VStr status) result st))
       = <[id := set_field "result"
                   match result with VUndefined => VNull | _ => result end
                   (set_field "status" (VStr status) rec)]> (tasks st)).
Proof.
  unfold updateTaskCard, showResult. unfold_M. cbn [ToString].
  destruct (getElementById ("card-" +:+ id) (tasksGrid st)) as [c|];
    [|simpl_state; auto].
  destruct (has_badge c); [|simpl_state; auto].
  simpl_state.
  destruct (tasks st !! id) as [rec|] eqn:Hrec; simpl_state;
    destruct (strict_equal (activeTaskId st) (VStr id)); simpl_state;
    try destruct (is_str (VStr status) "success" || is_str (VStr status) "failed");
    simpl_state;
    (split; [reflexivity|]); (split; [reflexivity|]);
    (split; [first [discriminate | auto]|]); eauto.
Qed.

Lemma console_mirrors_step id pre now e lines st :
  console_mirrors id pre lines st ->
  no_start_for id [(now, e)] = true ->
  console_mirrors id pre (lines ++ logged id [(now, e)]) (apply now e st).
Proof.
  intros (Hact & Hcon & rec & Hrec & Hlogs) Hno. unfold apply, console_mirrors.
  destruct e as [i p|i m|i s r]; cbn [logged no_start_for] in *.
  - (* a start for another task *)
    rewrite andb_true_r in Hno. apply negb_true_iff, String.eqb_neq in Hno.
    rewrite handleWsMessage_start, app_nil_r. simpl_state.
    split; [exact Hact|]. split; [exact Hcon|]. exists rec.
    rewrite lookup_insert_ne by assumption. auto.
  - destruct (String.eqb i id) eqn:Ei.
    + (* a log for the task in the modal *)
      apply String.eqb_eq in Ei. subst i.
      rewrite (handleWsMessage_log _ _ _ _ rec (VStr <$> lines)) by assumption.
      cbn [snd]. rewrite Hact. cbn [strict_equal]. rewrite String.eqb_refl.
      split; [exact Hact|]. split.
      * simpl_state. rewrite Hcon, app_assoc. reflexivity.
      * eexists. split; [simpl_state; apply lookup_insert_eq|].
        rewrite field_set_field_eq, fmap_app. reflexivity.
    + (* a log for another task *)
      apply String.eqb_neq in Ei. rewrite app_nil_r.
      destruct (tasks st !! i) as [rec_i|] eqn:Hi.
      * destruct (field "logs" rec_i) as [| |b|n|x|items|fields] eqn:Hli;
          try (rewrite (handleWsMessage_log_without_logs _ _ _ _ rec_i Hi)
                 by (intros l; rewrite Hli; discriminate);
               split; [exact Hact|]; split; [exact Hcon|]; eauto).
        rewrite (handleWsMessage_log _ _ _ _ rec_i items) by assumption.
        cbn [snd]. rewrite Hact. cbn [strict_equal].
        assert (E : String.eqb id i = false) by (apply String.eqb_neq; congruence).
        rewrite E. split; [exact Hact|]. split; [exact Hcon|].
        exists rec. simpl_state. rewrite lookup_insert_ne by assumption. auto.
      * destruct (inherited i) eqn:Hin.
        -- rewrite handleWsMessage_log_inherited by assumption.
           split; [exact Hact|]. split; [exact Hcon|]. eauto.
        -- rewrite (handleWsMessage_unknown _ _ _ i)
             by (first [discriminate|reflexivity|apply tasks_get_None; auto]).
           split; [exact Hact|]. split; [exact Hcon|]. eauto.
  - (* a complete *)
    rewrite app_nil_r, handleWsMessage_complete_eq.
    destruct (bool_decide (is_Some (tasks_get (tasks st) i)));
      [|split; [exact Hact|]; split; [exact Hcon|]; eauto].
    destruct (updateTaskCard_frame i s r st) as (Ha & Hc & _ & Ht).
    split; [congruence|]. split; [congruence|].
    destruct Ht as [Ht|(rec_i & Hi & Ht)]; rewrite Ht; [eauto|].
    destruct (decide (i = id)) as [->|Hne].
    + rewrite lookup_insert_eq. eexists. split; [reflexivity|].
      rewrite !field_set_field_ne by discriminate. congruence.
    + rewrite lookup_insert_ne by assumption. eauto.
Qed.

Lemma logged_cons id ne evs : logged id (ne :: evs) = logged id [ne] ++ logged id evs.
Proof.
  destruct ne as [t [i p|i m|i s r]]; cbn; try reflexivity.
  destruct (String.eqb i id); reflexivity.
Qed.

Lemma no_start_for_cons id ne evs :
  no_start_for id (ne :: evs) = no_start_for id [ne] && no_start_for id evs.
Proof.
  destruct ne as [t [i p|i m|i s r]]; cbn; try reflexivity.
  rewrite andb_true_r. reflexivity.
Qed.

Lemma console_mirrors_all id pre evs : forall lines st,
  console_mirrors id pre lines st ->
  no_start_for id evs = true ->
  console_mirrors id pre (lines ++ logged id evs) (apply_all evs st).
Proof.
  induction evs as [|[now e] evs IH]; intros lines st Hm Hno.
  - cbn. rewrite app_nil_r. exact Hm.
  - rewrite no_start_for_cons in Hno. apply andb_true_iff in Hno as [Hno1 Hno].
    rewrite apply_all_cons, logged_cons, app_assoc. cbn [fst snd].
    apply IH; [|exact Hno]. apply console_mirrors_step; assumption.
Qed.

(** X10. Opening the modal on a record with a string status, a persona
    that is a string or absent and logs that are strings makes it the
    active task, shows its status, shows its result exactly when the status
    is success or failed, and fills the console with its logs, or with the
    waiting line when it has none; store and grid are not touched.  On a
    store that holds no record under [__proto__], the click does nothing for
    an identifier that is neither in the store nor a name objects inherit;
    for an inherited name that is not in the store it makes the identifier
    the active task and then throws, the inherited member having no
    status. *)
Theorem modal_shows_the_record string_positive id st :
  (tasks st !! id = None -> tasks st !! "__proto__" = None ->
   openTaskModal string_positive (VStr id) st
     = if inherited id
       then (Throw TypeError, set_activeTaskId (VStr id) st)
       else (Normal tt, st)) /\
  (forall task s lines,
     tasks st !! id = Some task ->
     negb (truthy (field "persona" task)) || is_string (field "persona" task) = true ->
     field "status" task = VStr s ->
     field "logs" task = VArr (VStr <$> lines) ->
     exists st',
       openTaskModal string_positive (VStr id) st = (Normal tt, st') /\
       activeTaskId st' = VStr id /\
       modalStatus st' = s /\
       consoleOutput st' = match lines with [] => [waiting_line] | _ :: _ => lines end /\
       resultArea st' = (if String.eqb s "success" || String.eqb s "failed"
                         then Some (field "result" task) else None) /\
       tasks st' = tasks st /\ tasksGrid st' = tasksGrid st).
Proof.
  split.
  - intros Hnone _. unfold openTaskModal, to_string. cbn [ToString lift_opt].
    rewrite bind_ret_l, bind_gets. unfold tasks_get. rewrite Hnone.
    destruct (inherited id); reflexivity.
  - intros task s lines Hrec Hp Hs Hl. eexists. split.
    + apply (openTaskModal_eq _ _ _ task s lines); assumption.
    + repeat split.
Qed.

Lemma modal_shows_the_record_witness :
  (tasks finished_t1 !! "constructor" = None /\
   tasks finished_t1 !! "__proto__" = None /\
   openTaskModal (fun _ => false) (VStr "constructor") finished_t1
     = (Throw TypeError, set_activeTaskId (VStr "constructor") finished_t1)) /\
  exists st',
    openTaskModal (fun _ => false) (VStr "t1") finished_t1 = (Normal tt, st') /\
    activeTaskId st' = VStr "t1" /\
    modalStatus st' = "success" /\
    consoleOutput st' = ["searching"] /\
    resultArea st' = Some (VObj [("message", VStr "done")]).
Proof.
  destruct (modal_shows_the_record (fun _ => false) "constructor" finished_t1)
    as [H0 _].
  assert (N1 : tasks finished_t1 !! "constructor" = None) by (vm_compute; reflexivity).
  assert (N2 : tasks finished_t1 !! "__proto__" = None) by (vm_compute; reflexivity).
  split; [split; [exact N1|split; [exact N2|exact (H0 N1 N2)]]|].
  destruct (modal_shows_the_record (fun _ => false) "t1" finished_t1) as [_ H].
  destruct (H finished_t1_record "success" ["searching"])
    as (st' & H1 & H2 & H3 & H4 & H5 & _);
    [vm_compute; reflexivity|reflexivity|reflexivity|reflexivity|].
  exists st'. repeat split; assumption.
Defined.

(** X11. While the modal is open on a task, its console follows the logs
    of the record: after any push events none of which is a Start for that
    task, the console holds what it held when the modal opened followed by
    exactly the messages of the Log events for that task, in order, and
    the logs of the record grew by the same messages; events for other
    tasks leave the console alone.  A task opened without logs keeps the
    waiting line above its first messages. *)
Theorem open_console_follows_the_logs string_positive id st task s lines evs :
  tasks st !! id = Some task ->
  negb (truthy (field "persona" task)) || is_string (field "persona" task) = true ->
  field "status" task = VStr s ->
  field "logs" task = VArr (VStr <$> lines) ->
  no_start_for id evs = true ->
  let opened := snd (openTaskModal string_positive (VStr id) st) in
  consoleOutput (apply_all evs opened)
    = match lines with [] => [waiting_line] | _ :: _ => [] end
      ++ lines ++ logged id evs /\
  exists rec, tasks (apply_all evs opened) !! id = Some rec /\
              field "logs" rec = VArr (VStr <$> (lines ++ logged id evs)).
Proof.
  intros Hrec Hp Hs Hl Hno opened.
  assert (Hm : console_mirrors id
                 (match lines with [] => [waiting_line] | _ :: _ => [] end)
                 lines opened).
  { unfold opened. rewrite (openTaskModal_eq _ _ _ task s lines) by assumption.
    split; [reflexivity|]. split.
    - cbn. destruct lines; reflexivity.
    - exists task. cbn. split; [exact Hrec|exact Hl]. }
  destruct (console_mirrors_all id _ evs lines opened Hm Hno)
    as (_ & Hcon & rec & Hr & Hlg).
  split; [exact Hcon|]. exists rec. split; [exact Hr|exact Hlg].
Qed.

Lemma open_console_follows_the_logs_witness :
  consoleOutput
    (apply_all [("T4", Log "t1" "paying"); ("T5", Log "t9" "other");
                ("T6", Log "t1" "paid")]
       (snd (openTaskModal (fun _ => false) (VStr "t1") finished_t1)))
  = ["searching"; "paying"; "paid"].
Proof.
  destruct (open_console_follows_the_logs (fun _ => false) "t1" finished_t1
              finished_t1_record "success" ["searching"]
              [("T4", Log "t1" "paying"); ("T5", Log "t9" "other");
               ("T6", Log "t1" "paid")]) as [H _];
    [vm_compute; reflexivity|reflexivity|reflexivity|reflexivity|reflexivity|].
  exact H.
Defined.
(** ** The summary on what the form posts *)

Lemma ToString_primitive v : primitive v = true -> is_Some (ToString v).
Proof. destruct v as [| |[]| | | |]; try discriminate; cbn; eauto. Qed.

Lemma template_primitive prefix v :
  primitive v = true -> is_Some (template prefix v).
Proof.
  intros H. unfold template. destruct (ToString_primitive v H) as [s ->]. eauto.
Qed.

(** X12. The summary of a record is always defined when the fields of its
    payload are strings, numbers, booleans or null: only a payload field
    that is an object or an array can make [getTaskSummary] throw. *)
Theorem summary_defined_on_primitive_payloads task :
  (forall name,
     primitive (prop (or_else (field "payload" task) (VObj [])) name) = true) ->
  is_Some (getTaskSummary task).
Proof.
  intros H. rewrite getTaskSummary_summarize. unfold summarize.
  destruct (field "persona" task); eauto.
  destruct (table_lookup s summary_table) as [[[prefix name] missing]|]; eauto.
  apply template_primitive. unfold or_else at 1.
  destruct (truthy _); [apply H|reflexivity].
Qed.

Lemma summary_defined_on_primitive_payloads_witness :
  is_Some (getTaskSummary [("persona", VStr "patient");
                           ("payload", VObj [("medicine", VNum "7")])]).
Proof.
  apply summary_defined_on_primitive_payloads.
  intros name.
  change (primitive (prop (VObj [("medicine", VNum "7")]) name) = true).
  cbn [prop field]. destruct (String.eqb "medicine" name); reflexivity.
Defined.

(** X13. What the form posts is what the dashboard summarises: for each of
    the five personas, a record whose payload is the object the click
    handler built shows the text of the matching input (product, drop
    location, medicine, event name, food item) behind the wording of that
    persona, and the stand-in text when that input was left empty.  The
    click posts nothing when no persona is selected. *)
Theorem posted_input_is_summarised persona timestamp f task prefix name missing :
  table_lookup persona summary_table = Some (prefix, name, missing) ->
  field "persona" task = VStr persona ->
  field "payload" task = VObj (task_payload persona timestamp f) ->
  findDealBtn_click persona timestamp f = Some (task_payload persona timestamp f) /\
  field name (task_payload persona timestamp f) = VStr (summarised_input persona f) /\
  getTaskSummary task
    = Some (prefix +:+ (if String.eqb (summarised_input persona f) ""
                        then missing else summarised_input persona f)) /\
  findDealBtn_click "" timestamp f = None.
Proof.
  intros Ht Hp Hpay.
  assert (Hcases : persona = "shopper" \/ persona = "rider" \/ persona = "patient"
                   \/ persona = "coordinator" \/ persona = "foodie").
  { revert Ht. cbn.
    destruct (String.eqb persona "shopper") eqn:E1;
      [apply String.eqb_eq in E1; auto|].
    destruct (String.eqb persona "rider") eqn:E2;
      [apply String.eqb_eq in E2; auto|].
    destruct (String.eqb persona "patient") eqn:E3;
      [apply String.eqb_eq in E3; auto|].
    destruct (String.eqb persona "coordinator") eqn:E4;
      [apply String.eqb_eq in E4; auto|].
    destruct (String.eqb persona "foodie") eqn:E5;
      [apply String.eqb_eq in E5; auto 6|].
    discriminate. }
  rewrite getTaskSummary_summarize. unfold summarize.
  rewrite Hp, Ht, Hpay.
  destruct Hcases as [-> | [-> | [-> | [-> | ->]]]];
    injection Ht as <- <- <-;
    (split; [reflexivity|]); (split; [reflexivity|]); (split; [|reflexivity]);
    unfold summarised_input, or_else, template; cbn.
  - destruct (String.eqb (product_name f) ""); reflexivity.
  - destruct (String.eqb (drop_location f) ""); reflexivity.
  - destruct (String.eqb (medicine_name f) ""); reflexivity.
  - destruct (String.eqb (event_name f) ""); reflexivity.
  - destruct (String.eqb (food_item f) ""); reflexivity.
Qed.

Lemma posted_input_is_summarised_witness :
  getTaskSummary
    [("persona", VStr "rider");
     ("payload",
      VObj (task_payload "rider" "T0"
              (Form "" "Home" "Airport" "" "" "" "" "" false)))]
  = Some "Ride to Airport".
Proof.
  destruct (posted_input_is_summarised "rider" "T0"
              (Form "" "Home" "Airport" "" "" "" "" "" false)
              [("persona", VStr "rider");
               ("payload",
                VObj (task_payload "rider" "T0"
                        (Form "" "Home" "Airport" "" "" "" "" "" false)))]
              "Ride to " "drop" "destination" eq_refl eq_refl eq_refl)
    as (_ & _ & H & _).
  exact H.
Defined.

(** ** With the modal closed *)

Lemma modal_at_rest_step now e st0 st :
  modal_at_rest st0 st -> modal_at_rest st0 (apply now e st).
Proof.
  intros (Hact & Hcon & Hms & Hra). unfold apply, modal_at_rest.
  destruct e as [i p|i m|i s r].
  - rewrite handleWsMessage_start. simpl_state. auto.
  - destruct (tasks st !! i) as [rec|] eqn:Hi.
    + destruct (field "logs" rec) as [| |b|n|x|items|fields] eqn:Hl;
        try (rewrite (handleWsMessage_log_without_logs _ _ _ _ rec Hi)
               by (intros l; rewrite Hl; discriminate);
             simpl_state; auto).
      rewrite (handleWsMessage_log _ _ _ _ rec items) by assumption.
      cbn [snd]. rewrite Hact. cbn [strict_equal]. simpl_state. auto.
    + destruct (inherited i) eqn:Hin.
      * rewrite handleWsMessage_log_inherited by assumption. simpl_state. auto.
      * rewrite (handleWsMessage_unknown _ _ _ i)
          by (first [discriminate|reflexivity|apply tasks_get_None; auto]).
        unfold fetchTasks, modify. simpl_state. auto.
  - rewrite handleWsMessage_complete_eq.
    destruct (bool_decide (is_Some (tasks_get (tasks st) i)));
      [|unfold fetchTasks, modify; simpl_state; auto].
    destruct (updateTaskCard_frame i s r st) as (Ha & Hc & Hm & _).
    destruct Hm as [Hm1 Hm2]; [rewrite Hact; reflexivity|].
    repeat split; congruence.
Qed.

(** X14. Once the timer of [closeModal] has fired, push events are only
    stored: whatever Start, Log and Complete events follow, no task becomes
    active and the console, the status and the result panel of the modal
    stay exactly as they were. *)
Theorem closed_modal_is_not_written evs st :
  let closed := closeModal_timeout st in
  activeTaskId (apply_all evs closed) = VNull /\
  consoleOutput (apply_all evs closed) = consoleOutput st /\
  modalStatus (apply_all evs closed) = modalStatus st /\
  resultArea (apply_all evs closed) = resultArea st.
Proof.
  intros closed.
  assert (H : forall evs s, modal_at_rest st s -> modal_at_rest st (apply_all evs s)).
  { clear evs. induction evs as [|[now e] evs IH]; intros s Hs; [exact Hs|].
    rewrite apply_all_cons. apply IH. cbn [fst snd].
    apply modal_at_rest_step. exact Hs. }
  apply H. unfold closed, closeModal_timeout, modal_at_rest. simpl_state. auto.
Qed.

(** ** Plain personas, identifiers of the store's own *)

(** X15. For every store and every sequence Start{id} with a persona that
    carries no [<], then n Log{id} events, then one
    Complete{id,status,result} carrying a result, applied one after the
    other by [handleWsMessage], the resulting record for [id] has as [logs]
    the n Log messages in arrival order, and its [status] and [result] are
    those of the Complete event.  The store need not be free of [id]
    beforehand. *)
Theorem start_logs_complete st id persona t0 logs tc status result :
  text_safe persona = true ->
  result <> VUndefined ->
  exists rec lines,
    tasks (apply_all ((t0, Start id persona) :: log_events id logs
                        ++ [(tc, Complete id status result)]) st) !! id
      = Some rec /\
    field "logs" rec = VArr lines /\
    lines = messages logs /\
    length lines = length logs /\
    field "status" rec = VStr status /\
    field "result" rec = result.
Proof.
  intros Hplain Hres. rewrite apply_all_cons, apply_all_app. cbn [fst snd].
  set (st1 := apply t0 (Start id persona) st).
  assert (H1 : tasks st1 !! id = Some (newTask (VStr id) (VStr persona) t0)).
  { unfold st1, apply. rewrite handleWsMessage_start. cbn. apply lookup_insert_eq. }
  assert (Hc1 : getElementById ("card-" +:+ id) (tasksGrid st1)
                = Some (Card ("card-" +:+ id) "running" (placeholder persona)
                          (markup_of_persona persona))).
  { unfold st1, apply. rewrite handleWsMessage_start.
    cbn [snd tasksGrid set_tasksGrid getElementById card_id].
    rewrite String.eqb_refl. reflexivity. }
  assert (Hbadge : has_badge (Card ("card-" +:+ id) "running" (placeholder persona)
                                (markup_of_persona persona)) = true).
  { pose proof (markup_of_persona_text_safe persona Hplain) as Hb.
    unfold has_badge. cbn [card_markup].
    destruct (markup_of_persona persona); congruence. }
  destruct (apply_all_logs id logs st1 _ [] H1 eq_refl)
    as (rec' & Hrec' & Hlogs' & Hother & Hgrid).
  set (st2 := apply_all (log_events id logs) st1) in *.
  rewrite <- Hgrid in Hc1.
  cbn [apply_all fold_left fst snd]. unfold apply.
  rewrite (handleWsMessage_complete _ _ _ _ _ rec' _ Hrec' Hc1 Hbadge).
  eexists. exists (messages logs). split.
  { cbn [snd].
    destruct (strict_equal (activeTaskId st2) (VStr id));
      [destruct (String.eqb status "success" || String.eqb status "failed")|];
      cbn; apply lookup_insert_eq. }
  split.
  { rewrite !field_set_field_ne by discriminate. exact Hlogs'. }
  split; [reflexivity|]. split.
  { unfold messages. apply length_map. }
  split.
  { rewrite field_set_field_ne by discriminate. apply field_set_field_eq. }
  rewrite field_set_field_eq. destruct result; congruence.
Qed.

Lemma start_logs_complete_witness :
  text_safe "shopper" = true /\
  VObj [("message", VStr "done")] <> VUndefined /\
  exists rec lines,
    tasks (apply_all (("T0", Start "t1" "shopper")
                        :: log_events "t1" [("T1", "searching")]
                        ++ [("T2", Complete "t1" "success"
                                     (VObj [("message", VStr "done")]))])
                     initial_state) !! "t1"
      = Some rec /\
    field "logs" rec = VArr lines /\
    lines = messages [("T1", "searching")] /\
    length lines = length [("T1", "searching")] /\
    field "status" rec = VStr "success" /\
    field "result" rec = VObj [("message", VStr "done")].
Proof.
  split; [reflexivity|]. split; [discriminate|].
  apply (start_logs_complete initial_state "t1" "shopper" "T0"
           [("T1", "searching")] "T2" "success" (VObj [("message", VStr "done")]));
    [reflexivity|discriminate].
Defined.

(** X16. On a store that holds no record under [__proto__], a Log or
    Complete event whose identifier is neither in the store nor a name that
    objects inherit completes normally having issued exactly one snapshot
    fetch and changed nothing else: the state is the old one with one more
    fetch in flight, so no record is created and message, status and result
    are dropped. *)
Theorem unknown_identifier_reloads st now e :
  is_start e = false ->
  tasks st !! event_task_id e = None ->
  inherited (event_task_id e) = false ->
  tasks st !! "__proto__" = None ->
  handleWsMessage now (frame_of e) st
    = (Normal tt, set_fetches_in_flight (S (fetches_in_flight st)) st) /\
  tasks (apply now e st) = tasks st /\
  tasks (apply now e st) !! event_task_id e = None /\
  fetches_in_flight (apply now e st) = S (fetches_in_flight st).
Proof.
  intros Hs Hnone Hin _.
  assert (H : handleWsMessage now (frame_of e) st = fetchTasks st).
  { destruct e as [i p|i m|i s r]; [discriminate| |];
      apply (handleWsMessage_unknown _ _ _ i); try discriminate;
      try reflexivity; apply tasks_get_None; auto. }
  unfold apply. rewrite H. cbn. auto.
Qed.

Lemma unknown_identifier_reloads_witness :
  is_start (Log "t9" "x") = false /\
  tasks initial_state !! event_task_id (Log "t9" "x") = None /\
  inherited (event_task_id (Log "t9" "x")) = false /\
  tasks initial_state !! "__proto__" = None /\
  handleWsMessage "T0" (frame_of (Log "t9" "x")) initial_state
    = (Normal tt, set_fetches_in_flight 1 initial_state) /\
  tasks (apply "T0" (Log "t9" "x") initial_state) = tasks initial_state /\
  tasks (apply "T0" (Log "t9" "x") initial_state) !! "t9" = None /\
  fetches_in_flight (apply "T0" (Log "t9" "x") initial_state) = 1.
Proof.
  do 4 (split; [reflexivity|]).
  apply (unknown_identifier_reloads initial_state "T0" (Log "t9" "x"));
    reflexivity.
Defined.


